(** * The ETL run of [etl.py]: parameter resolution and twin-graph population

    A shallow embedding of [main] (src/etl.py).  The script is one straight
    line of effects: remote platform calls, local file writes, three CSV
    readers and two bulk writes.  Effects are threaded through a small
    state-and-exception monad whose state (the local files and the trace of
    calls issued so far) survives a raised exception, the way the side
    effects of a Python run survive its traceback.

    Conventions.
    - Python [str] is [string]; texts are taken as ASCII.
    - A value that may be [None] is a [pyval].
    - A [dict] keyed by strings is a [gmap string _].
    - Logging is not modelled: no call to [LOGGER] can fail or change data.
    - The remote platform, the zip and csv libraries and the operating
      system are a [World] of answers; an absent answer is a raised
      exception. *)

From Stdlib Require Import ZArith Ascii String DecimalString.
From Stdlib Require DecimalPos.
From stdpp Require Import base option list gmap strings.

Local Open Scope string_scope.
Local Open Scope list_scope.

(** ** Python values and exceptions *)

Inductive pyval :=
  | PyStr (s : string)
  | PyNone.

#[global] Instance pyval_eq_dec : EqDecision pyval.
Proof. solve_decision. Defined.

(** [bool(v)] for the two shapes we meet. *)
Definition truthy (v : pyval) : bool :=
  match v with
  | PyStr s => negb (String.eqb s "")
  | PyNone => false
  end.

(** [f"{v}"] *)
Definition py_format (v : pyval) : string :=
  match v with
  | PyStr s => s
  | PyNone => "None"
  end.

Inductive exn :=
  | KeyError (key : string)
  | ValueError (literal : string)
  | IndexError
  | TypeError
  | AttributeError
  | ApiException
  | CredentialError
  | FileNotFoundError (path : string)
  | OSError (path : string)
  | BadZipFile (path : string).

#[global] Instance exn_eq_dec : EqDecision exn.
Proof. solve_decision. Defined.

(** ** String primitives used by the script *)

Module Text.

(** [s.startswith(p)] *)
Definition startswith (s p : string) : bool := String.prefix p s.

(** [s.endswith("/")] *)
Fixpoint endswith_char (s : string) (c : ascii) : bool :=
  match s with
  | "" => false
  | String a "" => Ascii.eqb a c
  | String _ r => endswith_char r c
  end.

(** [sub in s] *)
Fixpoint contains (sub s : string) : bool :=
  if String.prefix sub s then true
  else match s with
       | "" => false
       | String _ r => contains sub r
       end.

(** [c in s] for one character. *)
Fixpoint has_char (c : ascii) (s : string) : bool :=
  match s with
  | "" => false
  | String a r => Ascii.eqb a c || has_char c r
  end.

(** [s.replace(old, "")] for a non-empty [old]: occurrences are found
    left to right and do not overlap.  [skip] counts the characters of a
    match that are still to be dropped. *)
Fixpoint remove_from (old : string) (skip : nat) (s : string) : string :=
  match s with
  | "" => ""
  | String c r =>
      match skip with
      | S k => remove_from old k r
      | O => if String.prefix old s
             then remove_from old (String.length old - 1) r
             else String c (remove_from old 0 r)
      end
  end.

Definition remove_all (old s : string) : string := remove_from old 0 s.

(** [s.split(sep)] for a one-character separator: never empty. *)
Fixpoint split (sep : ascii) (s : string) : list string :=
  match s with
  | "" => [""]
  | String c r =>
      if Ascii.eqb c sep then "" :: split sep r
      else match split sep r with
           | [] => [String c ""]
           | h :: t => String c h :: t
           end
  end.

(** [s.split("/")[-1]] *)
Definition last_segment (s : string) : string :=
  List.last (split "/" s) "".

(** [os.path.join(a, b)] on a POSIX system. *)
Definition path_join (a b : string) : string :=
  if startswith b "/" then b
  else if String.eqb a "" || endswith_char a "/" then a +:+ b
  else a +:+ "/" +:+ b.

(** Characters that [int] strips around a literal. *)
Definition is_space (c : ascii) : bool :=
  let n := nat_of_ascii c in
  (Nat.leb 9 n && Nat.leb n 13) || (Nat.leb 28 n && Nat.leb n 32).

Fixpoint lstrip (s : string) : string :=
  match s with
  | "" => ""
  | String c r => if is_space c then lstrip r else s
  end.

Fixpoint rstrip (s : string) : string :=
  match s with
  | "" => ""
  | String c r =>
      match rstrip r with
      | "" => if is_space c then "" else String c ""
      | r' => String c r'
      end
  end.

Definition digit_of (c : ascii) : option Z :=
  let n := nat_of_ascii c in
  if Nat.leb 48 n && Nat.leb n 57 then Some (Z.of_nat (n - 48)) else None.

(** Decimal digits with single underscores between them. *)
Fixpoint digits (s : string) (acc : Z) (after_digit : bool) : option Z :=
  match s with
  | "" => if after_digit then Some acc else None
  | String c r =>
      match digit_of c with
      | Some d => digits r (10 * acc + d)%Z true
      | None =>
          if Ascii.eqb c "_" && after_digit then digits r acc false
          else None
      end
  end.

(** [int(s)] in base ten; [None] stands for [ValueError]. *)
Definition int (s : string) : option Z :=
  match lstrip (rstrip s) with
  | String "+" r => digits r 0 false
  | String "-" r => Z.opp <$> digits r 0 false
  | t => digits t 0 false
  end.

(** [str(n)] *)
Definition of_int (n : Z) : string := NilZero.string_of_int (Z.to_int n).

End Text.



(** ** Data model *)

(** One entry of [runner_data['parameters_values']]. *)
Record RunParameter := {
  parameter_id : string;
  value : string;
  var_type : string;
}.

(** What [get_runner] answers, as far as the script reads it. *)
Record RunnerData := {
  dataset_list : list string;
  parameters_values : list RunParameter;
}.

(** What [find_dataset_by_id] answers.  [connector_parameters_values] is
    [dataset['connector']['parameters_values']], [None] when that
    subscript raises. *)
Record Dataset := {
  connector_parameters_values : option (gmap string string);
  status : pyval;
}.

(** One entry of the workspace file listing. *)
Record WorkspaceFile := {
  file_name : string;
}.

(** The dict literals of lines 106-112 and 125-132. *)
Record NodeRecord := {
  n_type : string;
  n_name : pyval;
  n_params : string;
}.

(** The dict literals of lines 140-146 and 154-160. *)
Record RelationshipRecord := {
  r_type : string;
  r_source : pyval;
  r_target : pyval;
  r_name : pyval;
  r_params : string;
}.

Inductive GraphRecord :=
  | Node (n : NodeRecord)
  | Relationship (r : RelationshipRecord).

(** One decoded item of the answer of the node bulk-create call:
    [item["a"]["id"]] and [item["a"]["properties"]["id"]]. *)
Record CreatedEntity := {
  twin_id : string;
  entity_id : string;
}.

#[global] Instance RunParameter_eq_dec : EqDecision RunParameter.
Proof. solve_decision. Defined.
#[global] Instance NodeRecord_eq_dec : EqDecision NodeRecord.
Proof. solve_decision. Defined.
#[global] Instance RelationshipRecord_eq_dec : EqDecision RelationshipRecord.
Proof. solve_decision. Defined.
#[global] Instance GraphRecord_eq_dec : EqDecision GraphRecord.
Proof. solve_decision. Defined.

(** The resolved parameters: [parameters[param_id] = (value, var_type)]. *)
Abbreviation Parameters := (gmap string (string * string)).

(** A row as [csv.DictReader] yields it (the [restkey] entry, which the
    script never reads, is left out). *)
Abbreviation Row := (gmap string pyval).

(** ** The world outside the script

    The organization, workspace and runner identifiers read from the
    environment only select which platform objects the calls address; they
    are part of the world.  Answers do not change during a run. *)
Record World := {
  (** [credentials.get_token(scope)] succeeds *)
  token_granted : bool;
  (** [os.environ.get("CSM_PARAMETERS_ABSOLUTE_PATH")] *)
  env_parameters_absolute_path : option string;
  api_get_runner : option RunnerData;
  api_find_dataset_by_id : string -> option Dataset;
  api_find_all_workspace_files : option (list WorkspaceFile);
  api_download_workspace_file : string -> option string;
  (** dataset id, query *)
  api_twingraph_query : string -> string -> bool;
  (** dataset id, type, graph_properties *)
  api_create_twingraph_entities :
    string -> string -> list GraphRecord -> option (list CreatedEntity);
  (** files present before the run, by path *)
  initial_files : gmap string string;
  (** [os.makedirs(path, exist_ok=True)] succeeds *)
  os_makedirs_ok : string -> bool;
  (** [open(path, "wb")] succeeds *)
  os_open_wb_ok : string -> bool;
  (** members of a zip archive as [extractall] lays them out: relative
      path and content; [None] for a file that is not a zip archive *)
  zip_members : string -> option (list (string * string));
  (** [csv.reader] on the text of a file: one list of fields per line,
      the empty list for a blank line *)
  csv_reader : string -> list (list string);
}.

(** Calls issued and local writes done, oldest first.  A remote call is
    recorded when it is issued, a local write when it has succeeded. *)
Inductive event :=
  | GetToken
  | GetRunner
  | FindDatasetById (dataset_id : string)
  | FindAllWorkspaceFiles
  | Makedirs (path : string)
  | DownloadWorkspaceFile (name : string)
  | WriteFile (path content : string)
  | ExtractFile (path content : string)
  | TwingraphQuery (dataset_id query : string)
  | CreateTwingraphEntities (dataset_id type : string)
      (graph_properties : list GraphRecord).

#[global] Instance event_eq_dec : EqDecision event.
Proof. solve_decision. Defined.

Record state := {
  files : gmap string string;
  trace : list event;
}.

Definition initial_state (w : World) : state :=
  {| files := initial_files w; trace := [] |}.

(** ** Results and the run monad *)

Inductive result (A : Type) :=
  | Ok (a : A)
  | Raise (e : exn).
Arguments Ok {A} a.
Arguments Raise {A} e.

#[global] Instance result_ret : MRet result := fun _ a => Ok a.
#[global] Instance result_bind : MBind result := fun _ _ f r =>
  match r with
  | Ok a => f a
  | Raise e => Raise e
  end.

#[global] Instance result_fmap : FMap result := fun _ _ f r =>
  match r with
  | Ok a => Ok (f a)
  | Raise e => Raise e
  end.


(** A loop that builds a list with [append], stopping at the first
    exception. *)
Fixpoint traverse {A B} (f : A -> result B) (l : list A) : result (list B) :=
  match l with
  | [] => Ok []
  | x :: xs =>
      match f x with
      | Raise e => Raise e
      | Ok y =>
          match traverse f xs with
          | Raise e => Raise e
          | Ok ys => Ok (y :: ys)
          end
      end
  end.

Definition M (A : Type) : Type := state -> result A * state.

Definition ret {A} (a : A) : M A := fun s => (Ok a, s).

Definition raise {A} (e : exn) : M A := fun s => (Raise e, s).

Definition bind {A B} (m : M A) (k : A -> M B) : M B := fun s =>
  match m s with
  | (Ok a, s') => k a s'
  | (Raise e, s') => (Raise e, s')
  end.

Notation "x <- m ;; k" := (bind m (fun x => k))
  (at level 100, m at next level, right associativity).

Definition emit (e : event) : M unit := fun s =>
  (Ok tt, {| files := files s; trace := trace s ++ [e] |}).

Definition lift_option {A} (e : exn) (o : option A) : M A :=
  match o with
  | Some a => ret a
  | None => raise e
  end.

Definition lift_result {A} (r : result A) : M A := fun s => (r, s).

(** [d[key]] *)
Definition getitem {V} (d : gmap string V) (key : string) : result V :=
  match d !! key with
  | Some v => Ok v
  | None => Raise (KeyError key)
  end.

(** [l[0]] *)
Definition index0 {A} (l : list A) : result A :=
  match l with
  | x :: _ => Ok x
  | [] => Raise IndexError
  end.

(** [int(s)] *)
Definition py_int (s : string) : result Z :=
  match Text.int s with
  | Some n => Ok n
  | None => Raise (ValueError s)
  end.

(** ** Calls to the world *)

(** lines 31-33 *)
Definition get_token (w : World) : M unit :=
  _ <- emit GetToken ;;
  if token_granted w then ret tt else raise CredentialError.

(** lines 44-46 *)
Definition get_runner (w : World) : M RunnerData :=
  _ <- emit GetRunner ;;
  lift_option ApiException (api_get_runner w).

Definition find_dataset_by_id (w : World) (dataset_id : string) : M Dataset :=
  _ <- emit (FindDatasetById dataset_id) ;;
  lift_option ApiException (api_find_dataset_by_id w dataset_id).

(** lines 53-55 *)
Definition find_all_workspace_files (w : World) : M (list WorkspaceFile) :=
  _ <- emit FindAllWorkspaceFiles ;;
  lift_option ApiException (api_find_all_workspace_files w).

(** lines 90-93, with the [read()] of line 96 *)
Definition download_workspace_file (w : World) (name : string) : M string :=
  _ <- emit (DownloadWorkspaceFile name) ;;
  lift_option ApiException (api_download_workspace_file w name).

Definition twingraph_query (w : World) (dataset_id query : string) : M unit :=
  _ <- emit (TwingraphQuery dataset_id query) ;;
  if api_twingraph_query w dataset_id query then ret tt
  else raise ApiException.

Definition create_twingraph_entities (w : World) (dataset_id type : string)
    (graph_properties : list GraphRecord) : M (list CreatedEntity) :=
  _ <- emit (CreateTwingraphEntities dataset_id type graph_properties) ;;
  lift_option ApiException
    (api_create_twingraph_entities w dataset_id type graph_properties).

(** line 80 *)
Definition makedirs (w : World) (path : string) : M unit :=
  if os_makedirs_ok w path then emit (Makedirs path)
  else raise (OSError path).

(** lines 95-96 *)
Definition write_file (w : World) (path content : string) : M unit :=
  fun s =>
    if os_open_wb_ok w path
    then (Ok tt, {| files := <[path := content]> (files s);
                    trace := trace s ++ [WriteFile path content] |})
    else (Raise (OSError path), s).

(** One member written by [extractall]. *)
Definition extract_file (w : World) (path content : string) : M unit :=
  fun s =>
    if os_open_wb_ok w path
    then (Ok tt, {| files := <[path := content]> (files s);
                    trace := trace s ++ [ExtractFile path content] |})
    else (Raise (OSError path), s).

(** [open(path)] followed by reading the whole file. *)
Definition read_file (path : string) : M string := fun s =>
  match files s !! path with
  | Some content => (Ok content, s)
  | None => (Raise (FileNotFoundError path), s)
  end.

(** ** Parameter Resolver (lines 57-98) *)

Definition DATASETID : string := "%DATASETID%".
Definition WORKSPACE_FILE : string := "%WORKSPACE_FILE%".
Definition WORKSPACE_FILE_SEGMENT : string := "%WORKSPACE_FILE%/".
Definition BLOB_PREFIX_KEY : string := "AZURE_STORAGE_CONTAINER_BLOB_PREFIX".

(** line 73: [param_values.get(KEY, False)] is the looked-up option;
    line 74: [not _base_file_name or "%WORKSPACE_FILE%" not in
    _base_file_name]. *)
Definition not_downloadable (_base_file_name : option string) : bool :=
  match _base_file_name with
  | None => true
  | Some p => String.eqb p "" || negb (Text.contains WORKSPACE_FILE p)
  end.

(** line 78 *)
Definition derived_prefix (_base_file_name : string) : string :=
  Text.remove_all WORKSPACE_FILE_SEGMENT _base_file_name.

(** lines 82-84 *)
Definition existing_files (all_api_files : list WorkspaceFile)
    (_file_name : string) : list string :=
  file_name <$>
    List.filter (fun _f => Text.startswith (file_name _f) _file_name)
      all_api_files.

(** line 94 *)
Definition target_file (tmp_dataset_dir _existing_file_name : string) : string :=
  Text.path_join tmp_dataset_dir (Text.last_segment _existing_file_name).

(** lines 89-96 *)
Fixpoint download_files (w : World) (tmp_dataset_dir : string)
    (names : list string) : M unit :=
  match names with
  | [] => ret tt
  | _existing_file_name :: rest =>
      dl_file <- download_workspace_file w _existing_file_name ;;
      _ <- write_file w (target_file tmp_dataset_dir _existing_file_name) dl_file ;;
      download_files w tmp_dataset_dir rest
  end.

(** lines 79-97 *)
Definition download_dataset (w : World) (all_api_files : list WorkspaceFile)
    (param_id _base_file_name : string) : M string :=
  let _file_name := derived_prefix _base_file_name in
  root <- lift_option TypeError (env_parameters_absolute_path w) ;;
  let tmp_dataset_dir := root +:+ "/" +:+ param_id in
  _ <- makedirs w tmp_dataset_dir ;;
  _ <- download_files w tmp_dataset_dir (existing_files all_api_files _file_name) ;;
  ret tmp_dataset_dir.

(** The body of the loop of line 58: the mapping after one parameter. *)
Definition resolve_parameter (w : World) (all_api_files : list WorkspaceFile)
    (parameter : RunParameter) (parameters : Parameters) : M Parameters :=
  let value := value parameter in
  let var_type := var_type parameter in
  let param_id := parameter_id parameter in
  if String.eqb var_type DATASETID then
    dataset <- find_dataset_by_id w value ;;
    param_values <- lift_option AttributeError (connector_parameters_values dataset) ;;
    let _base_file_name := param_values !! BLOB_PREFIX_KEY in
    match _base_file_name with
    | Some prefix =>
        if not_downloadable _base_file_name then ret parameters
        else
          value <- download_dataset w all_api_files param_id prefix ;;
          ret (<[param_id := (value, var_type)]> parameters)
    | None => ret parameters
    end
  else ret (<[param_id := (value, var_type)]> parameters).

(** The loop of line 58. *)
Fixpoint parameter_resolver (w : World) (all_api_files : list WorkspaceFile)
    (params : list RunParameter) (parameters : Parameters) : M Parameters :=
  match params with
  | [] => ret parameters
  | parameter :: rest =>
      parameters' <- resolve_parameter w all_api_files parameter parameters ;;
      parameter_resolver w all_api_files rest parameters'
  end.

(** ** Config Record Builder (lines 104-113) *)

Definition config_record_builder (parameters : Parameters) : result (list NodeRecord) :=
  num_waiters ← getitem parameters "num_waiters";
  nb_waiters ← py_int num_waiters.1;
  restock_quantity ← getitem parameters "restock_quantity";
  restock_qty ← py_int restock_quantity.1;
  stock ← getitem parameters "stock";
  stock' ← py_int stock.1;
  mret [ {| n_type := "Bar";
            n_name := PyStr "MyBar";
            n_params := "NbWaiters: " +:+ Text.of_int nb_waiters +:+ ","
                        +:+ "RestockQty: " +:+ Text.of_int restock_qty +:+ ","
                        +:+ "Stock: " +:+ Text.of_int stock' |} ].

(** ** Archive Extractor (lines 115-119) *)

Fixpoint extractall (w : World) (base_path : string)
    (members : list (string * string)) : M unit :=
  match members with
  | [] => ret tt
  | (name, content) :: rest =>
      _ <- extract_file w (Text.path_join base_path name) content ;;
      extractall w base_path rest
  end.

Definition archive_extractor (w : World) (parameters : Parameters) : M string :=
  bar_instance <- lift_result (getitem parameters "bar_instance") ;;
  let base_path := bar_instance.1 in
  let zip_path := base_path +:+ "/brewery_instance.zip" in
  archive <- read_file zip_path ;;
  members <- lift_option (BadZipFile zip_path) (zip_members w archive) ;;
  _ <- extractall w base_path members ;;
  ret (base_path +:+ "/reference").

(** ** CSV Entity Mapper (lines 120-161) *)

(** [dict(zip(fieldnames, row))], then [restval] for the field names a
    short row leaves over. *)
Fixpoint zip_row (fieldnames row : list string) (d : Row) : Row :=
  match fieldnames, row with
  | key :: keys, field :: fields => zip_row keys fields (<[key := PyStr field]> d)
  | key :: keys, [] => zip_row keys [] (<[key := PyNone]> d)
  | [], _ => d
  end.

Definition is_blank (row : list string) : bool :=
  match row with
  | [] => true
  | _ :: _ => false
  end.

(** The rows [csv.DictReader] iterates over: the first line gives the field
    names, blank lines after it are passed over. *)
Definition data_rows (lines : list (list string)) : list (list string) :=
  match lines with
  | [] => []
  | _ :: rest => List.filter (fun row => negb (is_blank row)) rest
  end.

Definition DictReader (lines : list (list string)) : list Row :=
  match lines with
  | [] => []
  | fieldnames :: _ => (fun row => zip_row fieldnames row ∅) <$> data_rows lines
  end.

(** lines 125-132 *)
Definition customer (row : Row) : result NodeRecord :=
  name ← getitem row "id";
  id ← getitem row "id";
  satisfaction ← getitem row "Satisfaction";
  surrounding ← getitem row "SurroundingSatisfaction";
  thirsty ← getitem row "Thirsty";
  mret {| n_type := "Customer";
          n_name := name;
          n_params := "Name: '" +:+ py_format id +:+ "',"
                      +:+ "Satisfaction: " +:+ py_format satisfaction +:+ ","
                      +:+ "SurroundingSatisfaction: " +:+ py_format surrounding +:+ ","
                      +:+ "Thirsty: " +:+ py_format thirsty |}.

(** lines 140-146 and 154-160, which differ in [type] only *)
Definition relationship (type : string) (row : Row) : result RelationshipRecord :=
  source ← getitem row "source";
  target ← getitem row "target";
  name ← getitem row "name";
  mret {| r_type := type;
          r_source := source;
          r_target := target;
          r_name := name;
          r_params := "a: 'a'" |}.

(** lines 120-133 *)
Definition customers_of (lines : list (list string)) : result (list NodeRecord) :=
  traverse customer (DictReader lines).

(** lines 135-147 and 149-161 *)
Definition relationships_of (type : string) (lines : list (list string))
    : result (list RelationshipRecord) :=
  traverse (relationship type) (DictReader lines).

Definition read_csv (w : World) (path : string) : M (list (list string)) :=
  text <- read_file path ;;
  ret (csv_reader w text).

Definition csv_entity_mapper (w : World) (base_path : string)
    : M (list NodeRecord * list RelationshipRecord * list RelationshipRecord) :=
  lines <- read_csv w (base_path +:+ "/Nodes/Customer.csv") ;;
  customers <- lift_result (customers_of lines) ;;
  lines <- read_csv w (base_path +:+ "/Edges/arc_Satisfaction.csv") ;;
  satisfactions <- lift_result (relationships_of "satisfaction" lines) ;;
  lines <- read_csv w (base_path +:+ "/Edges/Bar_vertex.csv") ;;
  links <- lift_result (relationships_of "bar_vertex" lines) ;;
  ret (customers, satisfactions, links).

(** ** Graph Writer (lines 165-194) *)

Definition DELETE_ALL : string := "MATCH (n) DETACH DELETE n".

Definition graph_writer (w : World) (runner_data : RunnerData)
    (bars customers : list NodeRecord)
    (satisfactions links : list RelationshipRecord) : M unit :=
  target <- lift_result (index0 (dataset_list runner_data)) ;;
  dataset <- find_dataset_by_id w target ;;
  _ <- (if truthy (status dataset) then twingraph_query w target DELETE_ALL
        else ret tt) ;;
  create <- create_twingraph_entities w target "node"
              (Node <$> (bars ++ customers)%list) ;;
  _ <- create_twingraph_entities w target "relationship"
         (Relationship <$> (satisfactions ++ links)%list) ;;
  ret tt.

(** ** The run (lines 29-196) *)

(** lines 30-98 *)
Definition load_parameters (w : World) : M (RunnerData * Parameters) :=
  _ <- get_token w ;;
  runner_data <- get_runner w ;;
  target <- lift_result (index0 (dataset_list runner_data)) ;;
  target_dataset <- find_dataset_by_id w target ;;
  all_api_files <- find_all_workspace_files w ;;
  parameters <- parameter_resolver w all_api_files
                  (parameters_values runner_data) ∅ ;;
  ret (runner_data, parameters).

(** lines 104-194 *)
Definition transform_and_load (w : World) (runner_data : RunnerData)
    (parameters : Parameters) : M unit :=
  bars <- lift_result (config_record_builder parameters) ;;
  base_path <- archive_extractor w parameters ;;
  records <- csv_entity_mapper w base_path ;;
  graph_writer w runner_data bars records.1.1 records.1.2 records.2.

Definition main (w : World) : M unit :=
  loaded <- load_parameters w ;;
  transform_and_load w loaded.1 loaded.2.

(** The run from the files present at its start. *)
Definition run (w : World) : result unit * state := main w (initial_state w).

(** ** The disabled block (lines 178-188)

    These lines are commented out in [main]; they are transcribed here, and
    used by no definition above, to state what they would have sent. *)

(** lines 180-184 *)
Definition ids_of (create : list CreatedEntity) : gmap string string :=
  foldl (fun ids item => <[entity_id item := twin_id item]> ids) ∅ create.

Definition ids_getitem (ids : gmap string string) (key : pyval) : result pyval :=
  match key with
  | PyStr k => PyStr <$> getitem ids k
  | PyNone => Raise (KeyError "None")
  end.

(** lines 186-188, for one link *)
Definition remap_link (ids : gmap string string) (link : RelationshipRecord)
    : result RelationshipRecord :=
  source ← ids_getitem ids (r_source link);
  target ← ids_getitem ids (r_target link);
  mret {| r_type := r_type link;
          r_source := source;
          r_target := target;
          r_name := r_name link;
          r_params := r_params link |}.

(** ** A sample world

    The Bar run of the repository: three literal parameters and a dataset
    parameter whose archive holds two customers and one edge of each kind.
    The store names the nodes it creates ["n1"], ["n2"], ["n3"]. *)

(** A [csv.reader] for texts without quotes. *)
Definition plain_csv_reader (text : string) : list (list string) :=
  let line_fields (l : string) := if String.eqb l "" then [] else Text.split "," l in
  match reverse (Text.split "010"%char text) with
  | "" :: lines => line_fields <$> reverse lines
  | lines => line_fields <$> reverse lines
  end.

Definition customer_csv : string :=
  "id,Satisfaction,SurroundingSatisfaction,Thirsty
c1,3,2,false
c2,0,1,true
".

Definition arc_satisfaction_csv : string :=
  "source,target,name
c1,c2,s12
".

Definition bar_vertex_csv : string :=
  "source,target,name
MyBar,c1,b1
".

Definition literal (id v : string) : RunParameter :=
  {| parameter_id := id; value := v; var_type := "int" |}.

Definition bar_params : list RunParameter :=
  [ literal "num_waiters" "5";
    literal "restock_quantity" "10";
    literal "stock" "100";
    {| parameter_id := "bar_instance"; value := "d-bar"; var_type := DATASETID |} ].

(** The sample world, for a storage prefix of the Bar dataset and a text
    of the bar-vertex table. *)
Definition sample_world (blob_prefix bar_vertex : string) : World :=
  {| token_granted := true;
     env_parameters_absolute_path := Some "/mnt/params";
     api_get_runner :=
       Some {| dataset_list := ["d-target"]; parameters_values := bar_params |};
     api_find_dataset_by_id := fun id =>
       if String.eqb id "d-target"
       then Some {| connector_parameters_values := None; status := PyStr "READY" |}
       else if String.eqb id "d-bar"
       then Some {| connector_parameters_values :=
                      Some {[ BLOB_PREFIX_KEY := blob_prefix ]};
                    status := PyNone |}
       else None;
     api_find_all_workspace_files :=
       Some [ {| file_name := "brewery/brewery_instance.zip" |};
              {| file_name := "notes/readme.txt" |} ];
     api_download_workspace_file := fun name =>
       if String.eqb name "brewery/brewery_instance.zip" then Some "PK" else None;
     api_twingraph_query := fun _ _ => true;
     api_create_twingraph_entities := fun _ type _ =>
       if String.eqb type "node"
       then Some [ {| twin_id := "n1"; entity_id := "MyBar" |};
                   {| twin_id := "n2"; entity_id := "c1" |};
                   {| twin_id := "n3"; entity_id := "c2" |} ]
       else Some [];
     initial_files := ∅;
     os_makedirs_ok := fun _ => true;
     os_open_wb_ok := fun path => negb (Text.endswith_char path "/");
     zip_members := fun archive =>
       if String.eqb archive "PK"
       then Some [ ("reference/Nodes/Customer.csv", customer_csv);
                   ("reference/Edges/arc_Satisfaction.csv", arc_satisfaction_csv);
                   ("reference/Edges/Bar_vertex.csv", bar_vertex) ]
       else None;
     csv_reader := plain_csv_reader |}.

Definition bar_world : World :=
  sample_world "%WORKSPACE_FILE%/brewery/" bar_vertex_csv.

(** The same run when the Bar dataset is not stored as a workspace file. *)
Definition blob_world : World := sample_world "brewery/" bar_vertex_csv.

(** The same run when the bar-vertex table names a customer [c9] that the
    Customer table does not have. *)
Definition dangling_world : World :=
  sample_world "%WORKSPACE_FILE%/brewery/" "source,target,name
MyBar,c9,b9
".

Definition bar_files : list WorkspaceFile :=
  [ {| file_name := "brewery/brewery_instance.zip" |};
    {| file_name := "notes/readme.txt" |} ].

Definition bar_instance_param : RunParameter :=
  {| parameter_id := "bar_instance"; value := "d-bar"; var_type := DATASETID |}.


(** ** Reading a field of a line

    The field at position [j] of a line as [csv.DictReader] sees it:
    [None] past the end of a short line. *)
Definition field (row : list string) (j : nat) : pyval :=
  match row !! j with
  | Some v => PyStr v
  | None => PyNone
  end.

(** ** Reading a trace *)

(** The local writes of the resolver in a list of events, oldest first. *)
Definition writes_of (events : list event) : list (string * string) :=
  omap (fun e => match e with
                 | WriteFile path content => Some (path, content)
                 | _ => None
                 end) events.

(** What the download loop issues for one workspace file whose content is
    [content]. *)
Definition download_events (tmp_dataset_dir name content : string) : list event :=
  [ DownloadWorkspaceFile name;
    WriteFile (target_file tmp_dataset_dir name) content ].

(** The bulk-create and query calls of the Graph Writer. *)
Definition is_graph_call (e : event) : bool :=
  match e with
  | TwingraphQuery _ _ | CreateTwingraphEntities _ _ _ => true
  | _ => false
  end.

(** The bulk-create calls alone. *)
Definition is_create (e : event) : bool :=
  match e with
  | CreateTwingraphEntities _ _ _ => true
  | _ => false
  end.

Definition graph_calls (events : list event) : list event :=
  List.filter is_graph_call events.

Definition create_calls (events : list event) : list event :=
  List.filter is_create events.

(** No event of the list is a call of the Graph Writer. *)
Definition quiet (events : list event) : Prop :=
  Forall (fun e => is_graph_call e = false) events.

(** A computation that issues no such call, and one that leaves the state
    as it is. *)
Definition keeps_quiet {A} (m : M A) : Prop :=
  forall s, quiet (trace s) -> quiet (trace (m s).2).

Definition keeps_state {A} (m : M A) : Prop :=
  forall s, (m s).2 = s.

(** The calls that follow the lookup of the target dataset in the Graph
    Writer, up to the first one that fails ([graph_writer_events] relates
    this list to the trace of [graph_writer]). *)
Definition writer_calls (w : World) (target : string) (dataset : Dataset)
    (nodes rels : list GraphRecord) : list event :=
  let creates :=
    CreateTwingraphEntities target "node" nodes
    :: match api_create_twingraph_entities w target "node" nodes with
       | Some _ => [CreateTwingraphEntities target "relationship" rels]
       | None => []
       end in
  if truthy (status dataset)
  then TwingraphQuery target DELETE_ALL
       :: (if api_twingraph_query w target DELETE_ALL then creates else [])
  else creates.

(** ** Files after a loop of writes *)

(** The local files after the download loop has written every name of
    [names]: a later write to the same path replaces an earlier one. *)
Definition downloaded (w : World) (tmp_dataset_dir : string)
    (names : list string) (fs : gmap string string) : gmap string string :=
  foldl (fun fs name =>
           <[target_file tmp_dataset_dir name
             := default "" (api_download_workspace_file w name)]> fs) fs names.

(** The local files after [extractall] has written every member. *)
Definition extracted (base_path : string) (members : list (string * string))
    (fs : gmap string string) : gmap string string :=
  foldl (fun fs member => <[Text.path_join base_path member.1 := member.2]> fs)
    fs members.

(** ** More sample worlds *)

(** A world with other answers to the downloads. *)
Definition with_downloads (w : World) (answers : string -> option string) : World :=
  {| token_granted := token_granted w;
     env_parameters_absolute_path := env_parameters_absolute_path w;
     api_get_runner := api_get_runner w;
     api_find_dataset_by_id := api_find_dataset_by_id w;
     api_find_all_workspace_files := api_find_all_workspace_files w;
     api_download_workspace_file := answers;
     api_twingraph_query := api_twingraph_query w;
     api_create_twingraph_entities := api_create_twingraph_entities w;
     initial_files := initial_files w;
     os_makedirs_ok := os_makedirs_ok w;
     os_open_wb_ok := os_open_wb_ok w;
     zip_members := zip_members w;
     csv_reader := csv_reader w |}.

(** Two workspace files with the same last segment. *)
Definition twin_names_world : World :=
  with_downloads bar_world (fun name =>
    if String.eqb name "a/x.csv" then Some "one"
    else if String.eqb name "b/x.csv" then Some "two"
    else None).

(** A world with other answers of the platform for the writer. *)
Definition with_graph (w : World) (query_ok : bool)
    (created : string -> option (list CreatedEntity)) : World :=
  {| token_granted := token_granted w;
     env_parameters_absolute_path := env_parameters_absolute_path w;
     api_get_runner := api_get_runner w;
     api_find_dataset_by_id := api_find_dataset_by_id w;
     api_find_all_workspace_files := api_find_all_workspace_files w;
     api_download_workspace_file := api_download_workspace_file w;
     api_twingraph_query := fun _ _ => query_ok;
     api_create_twingraph_entities := fun _ type _ => created type;
     initial_files := initial_files w;
     os_makedirs_ok := os_makedirs_ok w;
     os_open_wb_ok := os_open_wb_ok w;
     zip_members := zip_members w;
     csv_reader := csv_reader w |}.

(** A world with another runner description. *)
Definition with_runner (w : World) (runner : option RunnerData) : World :=
  {| token_granted := token_granted w;
     env_parameters_absolute_path := env_parameters_absolute_path w;
     api_get_runner := runner;
     api_find_dataset_by_id := api_find_dataset_by_id w;
     api_find_all_workspace_files := api_find_all_workspace_files w;
     api_download_workspace_file := api_download_workspace_file w;
     api_twingraph_query := api_twingraph_query w;
     api_create_twingraph_entities := api_create_twingraph_entities w;
     initial_files := initial_files w;
     os_makedirs_ok := os_makedirs_ok w;
     os_open_wb_ok := os_open_wb_ok w;
     zip_members := zip_members w;
     csv_reader := csv_reader w |}.

(** The events of [extractall] for a list of members. *)
Definition extract_events (base_path : string) (members : list (string * string))
    : list event :=
  (fun member => ExtractFile (Text.path_join base_path member.1) member.2)
    <$> members.

(** * Properties *)

(** ** The string primitives on small inputs *)

Example startswith_ex : Text.startswith "data/a.csv" "data/" = true.
Proof. reflexivity. Qed.

Example contains_ex :
  Text.contains "%WORKSPACE_FILE%" "x/%WORKSPACE_FILE%/y" = true
  /\ Text.contains "%WORKSPACE_FILE%" "x/%WORKSPACE_FILE/y" = false.
Proof. split; reflexivity. Qed.

Example remove_all_ex :
  Text.remove_all "ab" "xabyababz" = "xyz"
  /\ Text.remove_all "aa" "aaa" = "a"
  /\ Text.remove_all "ab" "aabb" = "ab".
Proof. repeat split; reflexivity. Qed.

Example split_ex :
  Text.split "/" "a/b//c" = ["a"; "b"; ""; "c"]
  /\ Text.split "/" "" = [""]
  /\ Text.last_segment "a/b/c.zip" = "c.zip"
  /\ Text.last_segment "c.zip" = "c.zip"
  /\ Text.last_segment "a/b/" = "".
Proof. repeat split; reflexivity. Qed.

Example path_join_ex :
  Text.path_join "/tmp/p" "f.csv" = "/tmp/p/f.csv"
  /\ Text.path_join "/tmp/p/" "f.csv" = "/tmp/p/f.csv"
  /\ Text.path_join "/tmp/p" "" = "/tmp/p/".
Proof. repeat split; reflexivity. Qed.

Example int_ex :
  Text.int "5" = Some 5%Z
  /\ Text.int " +1_000 " = Some 1000%Z
  /\ Text.int "-007" = Some (-7)%Z
  /\ Text.int "" = None
  /\ Text.int "5.0" = None
  /\ Text.int "1__0" = None
  /\ Text.int "_1" = None
  /\ Text.int "1_" = None
  /\ Text.int "- 1" = None.
Proof. repeat split; reflexivity. Qed.

Example of_int_ex :
  Text.of_int 100 = "100" /\ Text.of_int 0 = "0" /\ Text.of_int (-7) = "-7".
Proof. repeat split; reflexivity. Qed.

Example plain_csv_reader_ex :
  plain_csv_reader "a,b

1,2
" = [["a"; "b"]; []; ["1"; "2"]].
Proof. reflexivity. Qed.

Example DictReader_ex :
  DictReader [["a"; "b"]; []; ["1"; "2"]; ["3"]; ["4"; "5"; "6"]]
  = [ {[ "a" := PyStr "1"; "b" := PyStr "2" ]};
      {[ "a" := PyStr "3"; "b" := PyNone ]};
      {[ "a" := PyStr "4"; "b" := PyStr "5" ]} ].
Proof. vm_compute. reflexivity. Qed.

(** ** Text lemmas *)

Section text_lemmas.

Lemma append_nil_l (b : string) : "" +:+ b = b.
Proof. reflexivity. Qed.

Lemma append_cons (c : ascii) (a b : string) :
  String c a +:+ b = String c (a +:+ b).
Proof. reflexivity. Qed.



Lemma has_char_append (c : ascii) (a b : string) :
  Text.has_char c (a +:+ b) = Text.has_char c a || Text.has_char c b.
Proof.
  induction a as [|x a IH]; [reflexivity|].
  rewrite append_cons. simpl. rewrite IH. apply orb_assoc.
Qed.







(** [split] never answers the empty list, and its last piece has no
    separator and ends the text. *)
Lemma split_nonempty (sep : ascii) (s : string) : Text.split sep s <> [].
Proof.
  destruct s as [|c s]; simpl; [discriminate|].
  destruct (Ascii.eqb c sep); [discriminate|].
  destruct (Text.split sep s); discriminate.
Qed.

Lemma last_cons_nonempty {A} (x d : A) (l : list A) :
  l <> [] -> List.last (x :: l) d = List.last l d.
Proof. destruct l; [congruence|reflexivity]. Qed.

Lemma last_split_cons (sep c : ascii) (s : string) :
  Ascii.eqb c sep = false ->
  Text.has_char sep s = true ->
  List.last (Text.split sep (String c s)) "" = List.last (Text.split sep s) "".
Proof.
  intros Hc Hs. simpl. rewrite Hc.
  destruct s as [|x s]; [discriminate|].
  destruct (Text.split sep (String x s)) as [|h t] eqn:E.
  - exfalso. exact (split_nonempty _ _ E).
  - destruct t as [|h' t]; [|reflexivity].
    exfalso. clear Hc. revert h E Hs. generalize (String x s) as u.
    induction u as [|y u IH]; intros h E Hs; [discriminate|].
    simpl in E, Hs. destruct (Ascii.eqb y sep) eqn:Ey.
    + injection E as _ E. exact (split_nonempty _ _ E).
    + simpl in Hs. destruct (Text.split sep u) as [|h1 t1] eqn:E1.
      * exact (split_nonempty _ _ E1).
      * injection E as _ ->. eapply IH; eauto.
Qed.



End text_lemmas.

(** ** The derived file-name prefix (line 78) *)











(** ** Config Record Builder *)

Ltac unfold_result :=
  unfold mbind, mret, result_bind, result_ret, fmap, result_fmap in *.




(** ** CSV Entity Mapper *)

Lemma traverse_fmap_ok {A B C} (f : B -> result C) (g : A -> B) (h : A -> C)
    (l : list A) :
  (forall x, x ∈ l -> f (g x) = Ok (h x)) ->
  traverse f (g <$> l) = Ok (h <$> l).
Proof.
  induction l as [|x l IH]; intros H; [reflexivity|].
  cbn. rewrite H by apply list_elem_of_here.
  rewrite IH; [reflexivity|]. intros y Hy. apply H. by apply list_elem_of_further.
Qed.

Lemma traverse_head_raise {A B} (f : A -> result B) (x : A) (l : list A) (e : exn) :
  f x = Raise e -> traverse f (x :: l) = Raise e.
Proof. intros H. cbn. rewrite H. reflexivity. Qed.

(** What a successful loop appended: one record per element, in order. *)
Lemma traverse_Forall2 {A B} (f : A -> result B) (l : list A) (ys : list B) :
  traverse f l = Ok ys -> Forall2 (fun x y => f x = Ok y) l ys.
Proof.
  revert ys. induction l as [|x l IH]; intros ys H; cbn in H.
  - injection H as <-. constructor.
  - destruct (f x) as [y|] eqn:E; [|discriminate].
    destruct (traverse f l) as [ys'|]; [|discriminate].
    injection H as <-. constructor; auto.
Qed.

Lemma zip_row_other (fieldnames row : list string) (d : Row) (k : string) :
  k ∉ fieldnames -> zip_row fieldnames row d !! k = d !! k.
Proof.
  revert row d. induction fieldnames as [|key keys IH]; intros row d Hk.
  - destruct row; reflexivity.
  - apply not_elem_of_cons in Hk as [Hne Hk].
    destruct row as [|v vs]; cbn [zip_row]; rewrite IH by assumption;
      by rewrite lookup_insert_ne.
Qed.

Lemma zip_row_is_Some (fieldnames row : list string) (d : Row) (k : string) :
  k ∈ fieldnames \/ is_Some (d !! k) ->
  is_Some (zip_row fieldnames row d !! k).
Proof.
  revert row d. induction fieldnames as [|key keys IH]; intros row d H.
  - destruct H as [H|H]; [inversion H|]. destruct row; exact H.
  - assert (forall v, k ∈ keys \/ is_Some (<[key := v]> d !! k)) as H'.
    { intros v. destruct H as [H|H].
      - apply elem_of_cons in H as [->|H]; [right|left; assumption].
        rewrite lookup_insert_eq. eauto.
      - right. destruct (decide (key = k)) as [->|Hne].
        + rewrite lookup_insert_eq. eauto.
        + by rewrite lookup_insert_ne. }
    destruct row as [|v vs]; cbn [zip_row]; apply IH, H'.
Qed.

(** On a header without repeated names, the entry of a column is the field
    at the position of that column. *)
Lemma zip_row_field (fieldnames row : list string) (d : Row) (j : nat) (k : string) :
  NoDup fieldnames -> fieldnames !! j = Some k ->
  zip_row fieldnames row d !! k = Some (field row j).
Proof.
  revert row d j. induction fieldnames as [|key keys IH]; intros row d j Hnd Hj.
  - discriminate.
  - apply NoDup_cons in Hnd as [Hkey Hnd]. destruct j as [|j].
    + injection Hj as ->.
      destruct row as [|v vs]; cbn [zip_row]; rewrite zip_row_other by assumption;
        by rewrite lookup_insert_eq.
    + destruct row as [|v vs]; cbn [zip_row].
      * rewrite (IH [] _ j) by assumption. reflexivity.
      * rewrite (IH vs _ j) by assumption. reflexivity.
Qed.

Lemma data_rows_cons (fieldnames : list string) (rest : list (list string)) :
  DictReader (fieldnames :: rest)
  = (fun row => zip_row fieldnames row ∅) <$> data_rows (fieldnames :: rest).
Proof. reflexivity. Qed.

(** C6 (as stated, refuted): a data line that stops after the Satisfaction
    field misses two expected columns, and is mapped without error: the
    missing fields read as None. *)
Lemma C6_short_row_is_not_fatal :
  csv_reader bar_world "id,Satisfaction,SurroundingSatisfaction,Thirsty
c1,3
" = [["id"; "Satisfaction"; "SurroundingSatisfaction"; "Thirsty"]; ["c1"; "3"]]
  /\ customers_of
       [["id"; "Satisfaction"; "SurroundingSatisfaction"; "Thirsty"]; ["c1"; "3"]]
     = Ok [ {| n_type := "Customer";
               n_name := PyStr "c1";
               n_params := "Name: 'c1',Satisfaction: 3,SurroundingSatisfaction: None,Thirsty: None" |} ].
Proof. split; vm_compute; reflexivity. Qed.

(** C6 (amended): for a Customer CSV whose header line names the columns
    id, Satisfaction, SurroundingSatisfaction and Thirsty (no name twice),
    the mapper yields one record of type Customer per data line (a line
    after the header that is not blank), in file order; the name of a record
    is the id field of its line and its params text carries Name (the id, in
    quotes), Satisfaction, SurroundingSatisfaction and Thirsty as the fields
    of the line spell them.  A field that a short line does not have reads
    as None and is no error.  A header line that lacks one of the four
    columns is a fatal key-lookup error as soon as there is a data line;
    without data lines the mapper yields no record. *)
Theorem C6_customers_of (fieldnames : list string) (rest : list (list string)) :
  (forall j_id j_sat j_sur j_thi,
      NoDup fieldnames ->
      fieldnames !! j_id = Some "id" ->
      fieldnames !! j_sat = Some "Satisfaction" ->
      fieldnames !! j_sur = Some "SurroundingSatisfaction" ->
      fieldnames !! j_thi = Some "Thirsty" ->
      customers_of (fieldnames :: rest)
      = Ok ((fun row =>
               {| n_type := "Customer";
                  n_name := field row j_id;
                  n_params :=
                    "Name: '" +:+ py_format (field row j_id) +:+ "',"
                    +:+ "Satisfaction: " +:+ py_format (field row j_sat) +:+ ","
                    +:+ "SurroundingSatisfaction: " +:+ py_format (field row j_sur) +:+ ","
                    +:+ "Thirsty: " +:+ py_format (field row j_thi) |})
              <$> data_rows (fieldnames :: rest))
      /\ (forall records, customers_of (fieldnames :: rest) = Ok records ->
            length records = length (data_rows (fieldnames :: rest))))
  /\ (forall k,
        k ∈ ["id"; "Satisfaction"; "SurroundingSatisfaction"; "Thirsty"] ->
        k ∉ fieldnames ->
        data_rows (fieldnames :: rest) <> [] ->
        exists k', (k' ∉ fieldnames)
                   /\ customers_of (fieldnames :: rest) = Raise (KeyError k'))
  /\ (data_rows (fieldnames :: rest) = [] ->
      customers_of (fieldnames :: rest) = Ok []).
Proof.
  split; [|split].
  - intros j_id j_sat j_sur j_thi Hnd Hid Hsat Hsur Hthi.
    assert (E : customers_of (fieldnames :: rest)
                = Ok ((fun row =>
               {| n_type := "Customer";
                  n_name := field row j_id;
                  n_params :=
                    "Name: '" +:+ py_format (field row j_id) +:+ "',"
                    +:+ "Satisfaction: " +:+ py_format (field row j_sat) +:+ ","
                    +:+ "SurroundingSatisfaction: " +:+ py_format (field row j_sur) +:+ ","
                    +:+ "Thirsty: " +:+ py_format (field row j_thi) |})
              <$> data_rows (fieldnames :: rest))).
    { unfold customers_of. rewrite data_rows_cons.
      apply traverse_fmap_ok. intros row _.
      unfold customer, getitem.
      rewrite !(zip_row_field fieldnames row ∅ _ _ Hnd) by eassumption.
      reflexivity. }
    split; [exact E|].
    intros records H. rewrite E in H. injection H as <-.
    apply length_fmap.
  - intros k Hk Hnot Hrows.
    unfold customers_of. rewrite data_rows_cons.
    destruct (data_rows (fieldnames :: rest)) as [|row rows]; [congruence|].
    rewrite fmap_cons.
    assert (Hmiss : forall key, key ∉ fieldnames ->
                                zip_row fieldnames row ∅ !! key = None).
    { intros key Hkey. rewrite zip_row_other by assumption. apply lookup_empty. }
    assert (Hhave : forall key, key ∈ fieldnames ->
                                exists v, zip_row fieldnames row ∅ !! key = Some v).
    { intros key Hkey. apply (zip_row_is_Some fieldnames row ∅ key). by left. }
    destruct (decide ("id" ∈ fieldnames)) as [Hid|Hid].
    2:{ exists "id". split; [assumption|]. apply traverse_head_raise.
        unfold customer, getitem. rewrite (Hmiss _ Hid). reflexivity. }
    destruct (Hhave _ Hid) as [vid Eid].
    destruct (decide ("Satisfaction" ∈ fieldnames)) as [Hsat|Hsat].
    2:{ exists "Satisfaction". split; [assumption|]. apply traverse_head_raise.
        unfold customer, getitem. rewrite (Hmiss _ Hsat), Eid. reflexivity. }
    destruct (Hhave _ Hsat) as [vsat Esat].
    destruct (decide ("SurroundingSatisfaction" ∈ fieldnames)) as [Hsur|Hsur].
    2:{ exists "SurroundingSatisfaction". split; [assumption|].
        apply traverse_head_raise.
        unfold customer, getitem. rewrite (Hmiss _ Hsur), Eid, Esat.
        reflexivity. }
    destruct (Hhave _ Hsur) as [vsur Esur].
    destruct (decide ("Thirsty" ∈ fieldnames)) as [Hthi|Hthi].
    2:{ exists "Thirsty". split; [assumption|]. apply traverse_head_raise.
        unfold customer, getitem. rewrite (Hmiss _ Hthi), Eid, Esat, Esur.
        reflexivity. }
    exfalso.
    repeat match goal with
           | H : _ ∈ _ :: _ |- _ => apply elem_of_cons in H as [->|H]
           | H : _ ∈ [] |- _ => inversion H
           end; contradiction.
  - intros H. unfold customers_of. rewrite data_rows_cons, H. reflexivity.
Qed.

(** C6 (witness): the Customer table of the sample world, a table whose
    header has no Thirsty column, and a table with a header only. *)
Lemma C6_customers_of_witness :
  customers_of (csv_reader bar_world customer_csv)
  = Ok [ {| n_type := "Customer";
            n_name := PyStr "c1";
            n_params := "Name: 'c1',Satisfaction: 3,SurroundingSatisfaction: 2,Thirsty: false" |};
         {| n_type := "Customer";
            n_name := PyStr "c2";
            n_params := "Name: 'c2',Satisfaction: 0,SurroundingSatisfaction: 1,Thirsty: true" |} ]
  /\ (exists k', (k' ∉ ["id"; "Satisfaction"])
                 /\ customers_of [["id"; "Satisfaction"]; ["c1"; "3"]]
                    = Raise (KeyError k'))
  /\ customers_of [["id"; "Satisfaction"]] = Ok [].
Proof.
  split; [|split].
  - refine (proj1 (proj1 (C6_customers_of
              ["id"; "Satisfaction"; "SurroundingSatisfaction"; "Thirsty"]
              [["c1"; "3"; "2"; "false"]; ["c2"; "0"; "1"; "true"]])
              0 1 2 3 _ eq_refl eq_refl eq_refl eq_refl)).
    apply (bool_decide_unpack _). vm_compute. reflexivity.
  - refine (proj1 (proj2 (C6_customers_of ["id"; "Satisfaction"] [["c1"; "3"]]))
              "Thirsty" _ _ _).
    + apply (bool_decide_unpack _). vm_compute. reflexivity.
    + apply (bool_decide_unpack _). vm_compute. reflexivity.
    + discriminate.
  - exact (proj2 (proj2 (C6_customers_of ["id"; "Satisfaction"] [])) eq_refl).
Defined.

(** ** The run monad *)

Lemma bind_ok {A B} (m : M A) (k : A -> M B) (s s1 : state) (a : A) :
  m s = (Ok a, s1) -> bind m k s = k a s1.
Proof. intros H. unfold bind. rewrite H. reflexivity. Qed.

Lemma bind_raise {A B} (m : M A) (k : A -> M B) (s s1 : state) (e : exn) :
  m s = (Raise e, s1) -> bind m k s = (Raise e, s1).
Proof. intros H. unfold bind. rewrite H. reflexivity. Qed.

Lemma bind_inv_ok {A B} (m : M A) (k : A -> M B) (s s2 : state) (b : B) :
  bind m k s = (Ok b, s2) ->
  exists a s1, m s = (Ok a, s1) /\ k a s1 = (Ok b, s2).
Proof.
  unfold bind. destruct (m s) as [[a|e] s1]; intros H; [eauto|discriminate].
Qed.

Ltac unfold_run :=
  unfold find_dataset_by_id, get_token, get_runner, find_all_workspace_files,
    download_workspace_file, twingraph_query, create_twingraph_entities,
    makedirs, write_file, extract_file, read_file,
    lift_option, lift_result, bind, emit, ret, raise in *.



(** ** Parameter Resolver *)

Section resolver.

Context (w : World) (all_api_files : list WorkspaceFile).

Lemma parameter_resolver_app (l1 l2 : list RunParameter) (m : Parameters) (s : state) :
  parameter_resolver w all_api_files (l1 ++ l2) m s
  = bind (parameter_resolver w all_api_files l1 m)
      (fun m1 => parameter_resolver w all_api_files l2 m1) s.
Proof.
  revert m s. induction l1 as [|p l1 IH]; intros m s; [reflexivity|].
  cbn [app parameter_resolver]. unfold bind.
  destruct (resolve_parameter w all_api_files p m s) as [[m1|e] s1];
    [rewrite IH|]; reflexivity.
Qed.

(** The loop, split at one parameter. *)
Lemma parameter_resolver_split (pre post : list RunParameter) (p : RunParameter)
    (m0 resolved : Parameters) (s s' : state) :
  parameter_resolver w all_api_files (pre ++ p :: post) m0 s = (Ok resolved, s') ->
  exists m1 s1 m2 s2,
    parameter_resolver w all_api_files pre m0 s = (Ok m1, s1)
    /\ resolve_parameter w all_api_files p m1 s1 = (Ok m2, s2)
    /\ parameter_resolver w all_api_files post m2 s2 = (Ok resolved, s').
Proof.
  rewrite parameter_resolver_app. intros H.
  apply bind_inv_ok in H as (m1 & s1 & H1 & H).
  cbn [parameter_resolver] in H.
  apply bind_inv_ok in H as (m2 & s2 & H2 & H). eauto 10.
Qed.

(** One parameter touches no entry but its own. *)
Lemma resolve_parameter_other (p : RunParameter) (m m' : Parameters)
    (s s' : state) (k : string) :
  resolve_parameter w all_api_files p m s = (Ok m', s') ->
  k <> parameter_id p -> m' !! k = m !! k.
Proof.
  intros H Hk. unfold resolve_parameter in H.
  destruct (String.eqb (var_type p) DATASETID).
  - apply bind_inv_ok in H as (dataset & s1 & _ & H).
    apply bind_inv_ok in H as (param_values & s2 & _ & H).
    destruct (param_values !! BLOB_PREFIX_KEY) as [prefix|].
    + destruct (not_downloadable (Some prefix)).
      * injection H as <- _. reflexivity.
      * apply bind_inv_ok in H as (dir & s3 & _ & H).
        injection H as <- _. by rewrite lookup_insert_ne.
    + injection H as <- _. reflexivity.
  - injection H as <- _. by rewrite lookup_insert_ne.
Qed.

Lemma parameter_resolver_other (l : list RunParameter) (m m' : Parameters)
    (s s' : state) (k : string) :
  parameter_resolver w all_api_files l m s = (Ok m', s') ->
  k ∉ parameter_id <$> l -> m' !! k = m !! k.
Proof.
  revert m s. induction l as [|p l IH]; intros m s H Hk.
  - injection H as <- _. reflexivity.
  - cbn [parameter_resolver] in H.
    apply bind_inv_ok in H as (m1 & s1 & H1 & H).
    rewrite fmap_cons in Hk. apply not_elem_of_cons in Hk as [Hne Hk].
    rewrite (IH _ _ H Hk). eapply resolve_parameter_other; eauto.
Qed.

(** A parameter of literal type: line 98 alone. *)
Lemma resolve_literal (p : RunParameter) (m : Parameters) (s : state) :
  var_type p <> DATASETID ->
  resolve_parameter w all_api_files p m s
  = (Ok (<[parameter_id p := (value p, var_type p)]> m), s).
Proof.
  intros H. unfold resolve_parameter.
  apply String.eqb_neq in H. rewrite H. reflexivity.
Qed.

Lemma parameter_resolver_literals (l : list RunParameter) (m : Parameters)
    (s : state) :
  Forall (fun q => var_type q <> DATASETID) l ->
  exists resolved, parameter_resolver w all_api_files l m s = (Ok resolved, s).
Proof.
  intros H. revert m. induction H as [|p l Hp _ IH]; intros m.
  - eexists. reflexivity.
  - cbn [parameter_resolver].
    destruct (IH (<[parameter_id p := (value p, var_type p)]> m)) as [r Hr].
    exists r. erewrite bind_ok by (apply resolve_literal, Hp). exact Hr.
Qed.


End resolver.

(** C2: a parameter whose type is not the dataset sentinel is stored by
    line 98 with its value and its type as they came, without any call or
    write; the resolved mapping holds that entry at the end of the loop
    (parameter names are distinct: no later parameter carries the same
    one), and a list of such parameters always resolves. *)
Theorem C2_literal_parameter (w : World) (all_api_files : list WorkspaceFile)
    (pre post : list RunParameter) (p : RunParameter) :
  var_type p <> DATASETID ->
  (forall parameters s,
      resolve_parameter w all_api_files p parameters s
      = (Ok (<[parameter_id p := (value p, var_type p)]> parameters), s))
  /\ (forall m0 s resolved s',
        parameter_id p ∉ parameter_id <$> post ->
        parameter_resolver w all_api_files (pre ++ p :: post) m0 s
        = (Ok resolved, s') ->
        resolved !! parameter_id p = Some (value p, var_type p))
  /\ (forall m0 s,
        Forall (fun q => var_type q <> DATASETID) (pre ++ post) ->
        exists resolved,
          parameter_resolver w all_api_files (pre ++ p :: post) m0 s
          = (Ok resolved, s)).
Proof.
  intros Hp. split; [|split].
  - intros parameters s. by apply resolve_literal.
  - intros m0 s resolved s' Hpost H.
    apply parameter_resolver_split in H as (m1 & s1 & m2 & s2 & _ & H2 & H3).
    rewrite resolve_literal in H2 by assumption. injection H2 as <- <-.
    rewrite (parameter_resolver_other _ _ _ _ _ _ _ _ H3 Hpost).
    apply lookup_insert_eq.
  - intros m0 s H. apply parameter_resolver_literals.
    apply Forall_app in H as [H1 H2]. apply Forall_app. split; [assumption|].
    by constructor.
Qed.

(** C2 (witness): the parameter [stock] of the sample world. *)
Lemma C2_literal_parameter_witness :
  exists resolved s',
    parameter_resolver bar_world bar_files bar_params ∅ (initial_state bar_world)
    = (Ok resolved, s')
    /\ resolved !! "stock" = Some ("100", "int").
Proof.
  eexists _, _. split; [vm_compute; reflexivity|].
  refine (proj1 (proj2 (C2_literal_parameter bar_world bar_files
            [literal "num_waiters" "5"; literal "restock_quantity" "10"]
            [bar_instance_param] (literal "stock" "100") _))
            ∅ (initial_state bar_world) _ _ _ _).
  - discriminate.
  - apply (bool_decide_unpack _). vm_compute. reflexivity.
  - vm_compute. reflexivity.
Defined.

(** C3: a dataset parameter whose connector has no storage prefix, an empty
    one, or one without the marker, costs the lookup of its dataset and
    nothing else: no directory is made, no file is downloaded or written,
    and the mapping is left as it was.  Its name being that of no other
    parameter, the resolved mapping has no entry for it, a subscript on it
    raises the key-lookup error, and so does line 115 when the parameter is
    [bar_instance]. *)
Theorem C3_not_downloadable (w : World) (all_api_files : list WorkspaceFile)
    (p : RunParameter) (dataset : Dataset) (param_values : gmap string string) :
  var_type p = DATASETID ->
  api_find_dataset_by_id w (value p) = Some dataset ->
  connector_parameters_values dataset = Some param_values ->
  not_downloadable (param_values !! BLOB_PREFIX_KEY) = true ->
  (forall parameters s,
      resolve_parameter w all_api_files p parameters s
      = (Ok parameters,
         {| files := files s; trace := trace s ++ [FindDatasetById (value p)] |}))
  /\ (forall pre post resolved s s',
        parameter_id p ∉ parameter_id <$> pre ->
        parameter_id p ∉ parameter_id <$> post ->
        parameter_resolver w all_api_files (pre ++ p :: post) ∅ s
        = (Ok resolved, s') ->
        resolved !! parameter_id p = None
        /\ getitem resolved (parameter_id p) = Raise (KeyError (parameter_id p))
        /\ (parameter_id p = "bar_instance" ->
            forall s1, archive_extractor w resolved s1
                       = (Raise (KeyError "bar_instance"), s1))).
Proof.
  intros Hty Hds Hpv Hnd.
  assert (Hstep : forall parameters s,
      resolve_parameter w all_api_files p parameters s
      = (Ok parameters,
         {| files := files s; trace := trace s ++ [FindDatasetById (value p)] |})).
  { intros parameters s. unfold resolve_parameter.
    rewrite Hty, String.eqb_refl. unfold_run. cbn [files trace].
    rewrite Hds, Hpv.
    destruct (param_values !! BLOB_PREFIX_KEY) as [prefix|]; [|reflexivity].
    rewrite Hnd. reflexivity. }
  split; [exact Hstep|].
  intros pre post resolved s s' Hpre Hpost H.
  apply parameter_resolver_split in H as (m1 & s1 & m2 & s2 & H1 & H2 & H3).
  rewrite Hstep in H2. injection H2 as <- <-.
  assert (Hnone : resolved !! parameter_id p = None).
  { rewrite (parameter_resolver_other _ _ _ _ _ _ _ _ H3 Hpost).
    rewrite (parameter_resolver_other _ _ _ _ _ _ _ _ H1 Hpre).
    apply lookup_empty. }
  split; [exact Hnone|]. split.
  - unfold getitem. rewrite Hnone. reflexivity.
  - intros Hid s0. rewrite Hid in Hnone.
    unfold archive_extractor, getitem. unfold_run. rewrite Hnone. reflexivity.
Qed.

(** C3 (witness): the sample run with the Bar dataset stored outside the
    workspace files; the run itself stops at line 115. *)
Lemma C3_not_downloadable_witness :
  (exists resolved s',
      parameter_resolver blob_world bar_files bar_params ∅ (initial_state blob_world)
      = (Ok resolved, s')
      /\ resolved !! "bar_instance" = None
      /\ writes_of (trace s') = [])
  /\ (run blob_world).1 = Raise (KeyError "bar_instance").
Proof.
  split; [|vm_compute; reflexivity].
  eexists _, _. split; [vm_compute; reflexivity|]. split; [|vm_compute; reflexivity].
  refine (proj1 (proj2 (C3_not_downloadable blob_world bar_files bar_instance_param
            {| connector_parameters_values := Some {[ BLOB_PREFIX_KEY := "brewery/" ]};
               status := PyNone |}
            {[ BLOB_PREFIX_KEY := "brewery/" ]} eq_refl eq_refl eq_refl eq_refl)
            [literal "num_waiters" "5"; literal "restock_quantity" "10";
             literal "stock" "100"] [] _ (initial_state blob_world) _ _ _ _)).
  - apply (bool_decide_unpack _). vm_compute. reflexivity.
  - apply (bool_decide_unpack _). vm_compute. reflexivity.
  - vm_compute. reflexivity.
Defined.




(** ** Stages before the Graph Writer issue no graph call *)

Lemma keeps_state_quiet {A} (m : M A) : keeps_state m -> keeps_quiet m.
Proof. intros H s Hs. rewrite H. exact Hs. Qed.

Lemma keeps_quiet_ret {A} (a : A) : keeps_quiet (ret a).
Proof. intros s Hs. exact Hs. Qed.

Lemma keeps_quiet_raise {A} (e : exn) : keeps_quiet (@raise A e).
Proof. intros s Hs. exact Hs. Qed.

Lemma keeps_quiet_bind {A B} (m : M A) (k : A -> M B) :
  keeps_quiet m -> (forall a, keeps_quiet (k a)) -> keeps_quiet (bind m k).
Proof.
  intros Hm Hk s Hs. unfold bind. specialize (Hm s Hs).
  destruct (m s) as [[a|e] s1]; [apply Hk|]; exact Hm.
Qed.

Lemma keeps_quiet_emit (e : event) :
  is_graph_call e = false -> keeps_quiet (emit e).
Proof.
  intros He s Hs. cbn. apply Forall_app. split; [exact Hs|]. by constructor.
Qed.

Lemma keeps_quiet_lift_option {A} (e : exn) (o : option A) :
  keeps_quiet (lift_option e o).
Proof. destruct o; [apply keeps_quiet_ret|apply keeps_quiet_raise]. Qed.

Lemma keeps_quiet_lift_result {A} (r : result A) : keeps_quiet (lift_result r).
Proof. intros s Hs. exact Hs. Qed.

Lemma keeps_state_read_file (path : string) : keeps_state (read_file path).
Proof. intros s. unfold read_file. destruct (files s !! path); reflexivity. Qed.

Lemma keeps_quiet_write_file (w : World) (path content : string) :
  keeps_quiet (write_file w path content).
Proof.
  intros s Hs. unfold write_file. destruct (os_open_wb_ok w path); [|exact Hs].
  cbn. apply Forall_app. split; [exact Hs|]. by constructor.
Qed.

Lemma keeps_quiet_extract_file (w : World) (path content : string) :
  keeps_quiet (extract_file w path content).
Proof.
  intros s Hs. unfold extract_file. destruct (os_open_wb_ok w path); [|exact Hs].
  cbn. apply Forall_app. split; [exact Hs|]. by constructor.
Qed.

Create HintDb quiet.

#[local] Hint Resolve keeps_quiet_ret keeps_quiet_raise keeps_quiet_lift_option
  keeps_quiet_lift_result keeps_quiet_write_file keeps_quiet_extract_file
  : quiet.

Ltac quiet_steps :=
  repeat lazymatch goal with
    | |- keeps_quiet (bind _ _) => apply keeps_quiet_bind; [|intros ?]
    | |- keeps_quiet (emit _) => apply keeps_quiet_emit; reflexivity
    | |- keeps_quiet (read_file _) => apply keeps_state_quiet, keeps_state_read_file
    | |- keeps_quiet (if ?b then _ else _) => destruct b
    | |- keeps_quiet _ => progress auto with quiet
    end.

Lemma keeps_quiet_find_dataset_by_id (w : World) (dataset_id : string) :
  keeps_quiet (find_dataset_by_id w dataset_id).
Proof. unfold find_dataset_by_id. quiet_steps. Qed.

Lemma keeps_quiet_download_files (w : World) (dir : string) (names : list string) :
  keeps_quiet (download_files w dir names).
Proof.
  induction names as [|name names IH]; cbn [download_files]; [auto with quiet|].
  unfold download_workspace_file. quiet_steps; exact IH.
Qed.

Lemma keeps_quiet_resolve_parameter (w : World) (all_api_files : list WorkspaceFile)
    (p : RunParameter) (m : Parameters) :
  keeps_quiet (resolve_parameter w all_api_files p m).
Proof.
  unfold resolve_parameter. destruct (String.eqb (var_type p) DATASETID);
    [|auto with quiet].
  apply keeps_quiet_bind; [apply keeps_quiet_find_dataset_by_id|intros dataset].
  apply keeps_quiet_bind; [auto with quiet|intros param_values].
  destruct (param_values !! BLOB_PREFIX_KEY) as [prefix|]; [|auto with quiet].
  destruct (not_downloadable (Some prefix)); [auto with quiet|].
  apply keeps_quiet_bind; [|auto with quiet].
  unfold download_dataset. apply keeps_quiet_bind; [auto with quiet|intros root].
  apply keeps_quiet_bind.
  { unfold makedirs. destruct (os_makedirs_ok w _); [|auto with quiet].
    by apply keeps_quiet_emit. }
  intros _. apply keeps_quiet_bind; [apply keeps_quiet_download_files|].
  auto with quiet.
Qed.

Lemma keeps_quiet_parameter_resolver (w : World) (all_api_files : list WorkspaceFile)
    (params : list RunParameter) (m : Parameters) :
  keeps_quiet (parameter_resolver w all_api_files params m).
Proof.
  revert m. induction params as [|p params IH]; intros m;
    cbn [parameter_resolver]; [auto with quiet|].
  apply keeps_quiet_bind; [apply keeps_quiet_resolve_parameter|auto].
Qed.

Lemma keeps_quiet_load_parameters (w : World) : keeps_quiet (load_parameters w).
Proof.
  unfold load_parameters, get_token, get_runner, find_all_workspace_files.
  quiet_steps.
  - apply keeps_quiet_find_dataset_by_id.
  - apply keeps_quiet_parameter_resolver.
Qed.

Lemma keeps_quiet_extractall (w : World) (base_path : string)
    (members : list (string * string)) :
  keeps_quiet (extractall w base_path members).
Proof.
  induction members as [|[name content] members IH]; cbn [extractall];
    [auto with quiet|].
  apply keeps_quiet_bind; [auto with quiet|intros _; exact IH].
Qed.

Lemma keeps_quiet_archive_extractor (w : World) (parameters : Parameters) :
  keeps_quiet (archive_extractor w parameters).
Proof.
  unfold archive_extractor. quiet_steps. apply keeps_quiet_extractall.
Qed.

Lemma keeps_state_bind {A B} (m : M A) (k : A -> M B) :
  keeps_state m -> (forall a, keeps_state (k a)) -> keeps_state (bind m k).
Proof.
  intros Hm Hk s. unfold bind. specialize (Hm s).
  destruct (m s) as [[a|e] s1]; cbn in Hm; subst s1; [apply Hk|reflexivity].
Qed.

Lemma keeps_state_read_csv (w : World) (path : string) :
  keeps_state (read_csv w path).
Proof.
  unfold read_csv. apply keeps_state_bind; [apply keeps_state_read_file|].
  intros text s. reflexivity.
Qed.

Lemma keeps_state_csv_entity_mapper (w : World) (base_path : string) :
  keeps_state (csv_entity_mapper w base_path).
Proof.
  unfold csv_entity_mapper.
  repeat lazymatch goal with
    | |- keeps_state (bind _ _) => apply keeps_state_bind; [|intros ?]
    | |- keeps_state (read_csv _ _) => apply keeps_state_read_csv
    | |- keeps_state _ => intros s; reflexivity
    end.
Qed.

(** ** Graph Writer *)

Lemma graph_writer_events (w : World) (rd : RunnerData)
    (bars customers : list NodeRecord) (sats links : list RelationshipRecord)
    (s : state) (target : string) (tail : list string) (dataset : Dataset) :
  dataset_list rd = target :: tail ->
  api_find_dataset_by_id w target = Some dataset ->
  trace (graph_writer w rd bars customers sats links s).2
  = trace s ++ FindDatasetById target
      :: writer_calls w target dataset (Node <$> bars ++ customers)
           (Relationship <$> sats ++ links).
Proof.
  intros Hrd Hds. unfold graph_writer, writer_calls. rewrite Hrd.
  unfold_run. cbn [index0 files trace]. rewrite Hds.
  destruct (truthy (status dataset)); cbn [files trace].
  - destruct (api_twingraph_query w target DELETE_ALL); cbn [files trace snd].
    + destruct (api_create_twingraph_entities w target "node" _); cbn [files trace snd].
      * destruct (api_create_twingraph_entities w target "relationship" _);
          cbn [files trace snd]; rewrite <- !app_assoc; reflexivity.
      * rewrite <- !app_assoc; reflexivity.
    + rewrite <- !app_assoc; reflexivity.
  - destruct (api_create_twingraph_entities w target "node" _); cbn [files trace snd].
    + destruct (api_create_twingraph_entities w target "relationship" _);
        cbn [files trace snd]; rewrite <- !app_assoc; reflexivity.
    + rewrite <- !app_assoc; reflexivity.
Qed.

(** When the target dataset cannot be looked up, the writer issues no graph
    call. *)
Lemma graph_writer_no_target (w : World) (rd : RunnerData)
    (bars customers : list NodeRecord) (sats links : list RelationshipRecord)
    (s : state) :
  quiet (trace s) ->
  (dataset_list rd = []
   \/ exists target tail, dataset_list rd = target :: tail
                          /\ api_find_dataset_by_id w target = None) ->
  quiet (trace (graph_writer w rd bars customers sats links s).2).
Proof.
  intros Hs [H|(target & tail & H & Hds)]; unfold graph_writer; rewrite H.
  - exact Hs.
  - unfold_run. cbn [index0 files trace]. rewrite Hds. cbn.
    apply Forall_app. split; [exact Hs|]. by constructor.
Qed.

(** The writer succeeds exactly when each of its calls is answered. *)
Lemma graph_writer_ok (w : World) (rd : RunnerData)
    (bars customers : list NodeRecord) (sats links : list RelationshipRecord)
    (s : state) (target : string) (tail : list string) (dataset : Dataset) :
  dataset_list rd = target :: tail ->
  api_find_dataset_by_id w target = Some dataset ->
  (truthy (status dataset) = true -> api_twingraph_query w target DELETE_ALL = true) ->
  is_Some (api_create_twingraph_entities w target "node" (Node <$> bars ++ customers)) ->
  is_Some (api_create_twingraph_entities w target "relationship"
             (Relationship <$> sats ++ links)) ->
  (graph_writer w rd bars customers sats links s).1 = Ok tt.
Proof.
  intros Hrd Hds Hq [cn Hn] [cr Hr]. unfold graph_writer. rewrite Hrd.
  unfold_run. cbn [index0 files trace]. rewrite Hds.
  destruct (truthy (status dataset)); cbn [files trace].
  - rewrite Hq by reflexivity. cbn [files trace]. rewrite Hn. cbn [files trace].
    rewrite Hr. reflexivity.
  - rewrite Hn. cbn [files trace]. rewrite Hr. reflexivity.
Qed.

(** ** The run, stage by stage *)

Lemma quiet_initial (w : World) : quiet (trace (initial_state w)).
Proof. constructor. Qed.

Lemma run_cases (w : World) :
  (exists e s, run w = (Raise e, s) /\ quiet (trace s))
  \/ (exists rd parameters s1 bars base_path s2 customers sats links,
        load_parameters w (initial_state w) = (Ok (rd, parameters), s1)
        /\ config_record_builder parameters = Ok bars
        /\ archive_extractor w parameters s1 = (Ok base_path, s2)
        /\ csv_entity_mapper w base_path s2 = (Ok (customers, sats, links), s2)
        /\ quiet (trace s2)
        /\ run w = graph_writer w rd bars customers sats links s2).
Proof.
  unfold run, main.
  pose proof (keeps_quiet_load_parameters w _ (quiet_initial w)) as Q1.
  destruct (load_parameters w (initial_state w)) as [[[rd parameters]|e] s1] eqn:E1.
  2:{ left. erewrite bind_raise by exact E1. eauto. }
  erewrite bind_ok by exact E1. cbn [fst snd] in *. unfold transform_and_load.
  destruct (config_record_builder parameters) as [bars|e] eqn:E2.
  2:{ left. erewrite bind_raise by reflexivity. eauto. }
  erewrite bind_ok by reflexivity.
  pose proof (keeps_quiet_archive_extractor w parameters _ Q1) as Q2.
  destruct (archive_extractor w parameters s1) as [[base_path|e] s2] eqn:E3.
  2:{ left. erewrite bind_raise by exact E3. eauto. }
  erewrite bind_ok by exact E3. cbn [fst snd] in *.
  pose proof (keeps_state_csv_entity_mapper w base_path s2) as K.
  destruct (csv_entity_mapper w base_path s2)
    as [[[[customers sats] links]|e] s3] eqn:E4; cbn [snd] in K; subst s3.
  2:{ left. erewrite bind_raise by exact E4. eauto. }
  erewrite bind_ok by exact E4. cbn [fst snd].
  right. eexists rd, parameters, s1, bars, base_path, s2, customers, sats, links.
  repeat split; assumption || reflexivity.
Qed.


(** ** The trace of a run *)

Lemma quiet_elem (events : list event) (e : event) :
  quiet events -> e ∈ events -> is_graph_call e = false.
Proof. intros H He. eapply Forall_forall in H; eauto. Qed.

Lemma split_after_quiet (pre evs l1 l2 : list event) (e : event) :
  is_graph_call e = true -> quiet pre ->
  pre ++ evs = l1 ++ e :: l2 ->
  exists l1', l1 = pre ++ l1' /\ evs = l1' ++ e :: l2.
Proof.
  intros He. revert l1. induction pre as [|x pre IH]; intros l1 Hq H.
  - exists l1. split; [reflexivity|exact H].
  - apply Forall_cons in Hq as [Hx Hq]. destruct l1 as [|y l1].
    + cbn in H. injection H as -> _. congruence.
    + cbn in H. injection H as -> H.
      destruct (IH l1 Hq H) as (l1' & -> & E). exists l1'. split; [reflexivity|exact E].
Qed.

(** Either the run issues no graph call at all, or it reaches the Graph
    Writer with the records of the mapper and the builder, the target
    dataset is looked up, and the rest of the trace is [writer_calls]. *)
Lemma run_trace (w : World) :
  quiet (trace (run w).2)
  \/ (exists rd parameters s1 bars base_path s2 customers sats links
             target tail dataset,
        load_parameters w (initial_state w) = (Ok (rd, parameters), s1)
        /\ config_record_builder parameters = Ok bars
        /\ archive_extractor w parameters s1 = (Ok base_path, s2)
        /\ csv_entity_mapper w base_path s2 = (Ok (customers, sats, links), s2)
        /\ quiet (trace s2)
        /\ dataset_list rd = target :: tail
        /\ api_find_dataset_by_id w target = Some dataset
        /\ run w = graph_writer w rd bars customers sats links s2
        /\ trace (run w).2
           = trace s2 ++ FindDatasetById target
               :: writer_calls w target dataset (Node <$> bars ++ customers)
                    (Relationship <$> sats ++ links)).
Proof.
  destruct (run_cases w) as [(e & s & -> & Hq)|
    (rd & parameters & s1 & bars & base_path & s2 & customers & sats & links
     & E1 & E2 & E3 & E4 & Hq & Hrun)].
  - left. exact Hq.
  - destruct (dataset_list rd) as [|target tail] eqn:Hrd.
    { left. rewrite Hrun. apply graph_writer_no_target; auto. }
    destruct (api_find_dataset_by_id w target) as [dataset|] eqn:Hds.
    2:{ left. rewrite Hrun. apply graph_writer_no_target; eauto 10. }
    right. exists rd, parameters, s1, bars, base_path, s2, customers, sats, links,
      target, tail, dataset.
    repeat (split; [assumption|]).
    rewrite Hrun. by eapply graph_writer_events.
Qed.

(** The calls of the writer, one by one. *)
Lemma writer_calls_elem (w : World) (target : string) (dataset : Dataset)
    (nodes rels : list GraphRecord) (e : event) :
  e ∈ writer_calls w target dataset nodes rels ->
  (e = TwingraphQuery target DELETE_ALL /\ truthy (status dataset) = true)
  \/ e = CreateTwingraphEntities target "node" nodes
  \/ e = CreateTwingraphEntities target "relationship" rels.
Proof.
  unfold writer_calls.
  destruct (truthy (status dataset)), (api_twingraph_query w target DELETE_ALL),
    (api_create_twingraph_entities w target "node" nodes);
    intros H;
    repeat match goal with
           | H : _ ∈ _ :: _ |- _ => apply elem_of_cons in H as [->|H]
           | H : _ ∈ [] |- _ => inversion H
           end; auto.
Qed.

Lemma writer_calls_query (w : World) (target : string) (dataset : Dataset)
    (nodes rels : list GraphRecord) :
  TwingraphQuery target DELETE_ALL ∈ writer_calls w target dataset nodes rels
  <-> truthy (status dataset) = true.
Proof.
  split.
  - intros H. apply writer_calls_elem in H as [[_ H]|[H|H]];
      [exact H|discriminate..].
  - intros H. unfold writer_calls. rewrite H. apply list_elem_of_here.
Qed.

(** In the calls of the writer, the relationship write comes after the
    node write. *)
Lemma writer_calls_order (w : World) (target : string) (dataset : Dataset)
    (nodes rels : list GraphRecord) (l1 l2 : list event) (ds : string)
    (recs : list GraphRecord) :
  writer_calls w target dataset nodes rels
  = l1 ++ CreateTwingraphEntities ds "relationship" recs :: l2 ->
  ds = target /\ recs = rels /\ l2 = []
  /\ CreateTwingraphEntities target "node" nodes ∈ l1.
Proof.
  unfold writer_calls.
  destruct (truthy (status dataset)), (api_twingraph_query w target DELETE_ALL),
    (api_create_twingraph_entities w target "node" nodes);
    intros H;
    repeat (destruct l1 as [|? l1]; cbn in H; try discriminate;
            try (injection H as <- H); try (injection H as H));
    simplify_eq;
    repeat split; try reflexivity;
    repeat first [apply list_elem_of_here | apply list_elem_of_further].
Qed.

(** A graph call of a run that reached the writer is one of its calls. *)
Lemma graph_call_in_writer_calls (pre calls : list event) (f e : event) :
  quiet pre -> is_graph_call f = false -> is_graph_call e = true ->
  e ∈ pre ++ f :: calls -> e ∈ calls.
Proof.
  intros Hq Hf He H. apply elem_of_app in H as [H|H].
  - apply (quiet_elem _ _ Hq) in H. congruence.
  - apply elem_of_cons in H as [->|H]; [congruence|exact H].
Qed.

(** C8: once the target dataset is looked up, the Graph Writer issues the
    delete-all query on it if and only if its status is truthy, and issues
    no other query; in every run, a relationship bulk-create call has a node
    bulk-create call on the same dataset before it, every query of the run
    is the delete-all query on a dataset whose status is truthy, and a run
    that reaches a bulk-create call on a dataset whose status is truthy has
    issued the delete-all query. *)
Theorem C8_clear_then_write (w : World) :
  (forall rd bars customers sats links s target tail dataset,
      dataset_list rd = target :: tail ->
      api_find_dataset_by_id w target = Some dataset ->
      exists evs,
        trace (graph_writer w rd bars customers sats links s).2 = trace s ++ evs
        /\ (TwingraphQuery target DELETE_ALL ∈ evs
            <-> truthy (status dataset) = true)
        /\ (forall ds q, TwingraphQuery ds q ∈ evs -> ds = target /\ q = DELETE_ALL))
  /\ (forall l1 l2 ds rels,
        trace (run w).2
        = l1 ++ CreateTwingraphEntities ds "relationship" rels :: l2 ->
        exists nodes, CreateTwingraphEntities ds "node" nodes ∈ l1)
  /\ (forall ds q,
        TwingraphQuery ds q ∈ trace (run w).2 ->
        q = DELETE_ALL
        /\ exists dataset, api_find_dataset_by_id w ds = Some dataset
                           /\ truthy (status dataset) = true)
  /\ (forall ds type recs dataset,
        CreateTwingraphEntities ds type recs ∈ trace (run w).2 ->
        api_find_dataset_by_id w ds = Some dataset ->
        truthy (status dataset) = true ->
        TwingraphQuery ds DELETE_ALL ∈ trace (run w).2).
Proof.
  split; [|split; [|split]].
  - intros rd bars customers sats links s target tail dataset Hrd Hds.
    eexists. split; [by eapply graph_writer_events|]. split.
    + rewrite <- writer_calls_query. rewrite elem_of_cons.
      split; [intros [H|H]; [discriminate|exact H]|by right].
    + intros ds q H. apply elem_of_cons in H as [H|H]; [discriminate|].
      apply writer_calls_elem in H as [[H _]|[H|H]]; [|discriminate..].
      injection H as -> ->. by split.
  - intros l1 l2 ds rels H.
    destruct (run_trace w) as [Hq|
      (rd & parameters & s1 & bars & base_path & s2 & customers & sats & links
       & target & tail & dataset & _ & _ & _ & _ & Hq & _ & _ & _ & Htr)].
    + rewrite H in Hq. apply Forall_app in Hq as [_ Hq].
      apply Forall_cons in Hq as [Hq _]. discriminate.
    + rewrite Htr in H.
      apply split_after_quiet in H as (l1' & -> & H); [|reflexivity|exact Hq].
      destruct l1' as [|f l1']; [discriminate|]. cbn in H. injection H as <- H.
      apply writer_calls_order in H as (-> & _ & _ & H).
      eexists. apply elem_of_app. right. apply list_elem_of_further. exact H.
  - intros ds q H.
    destruct (run_trace w) as [Hq|
      (rd & parameters & s1 & bars & base_path & s2 & customers & sats & links
       & target & tail & dataset & _ & _ & _ & _ & Hq & _ & Hds & _ & Htr)].
    + apply (quiet_elem _ _ Hq) in H. discriminate.
    + rewrite Htr in H.
      apply graph_call_in_writer_calls in H; [|assumption|reflexivity..].
      apply writer_calls_elem in H as [[H Ht]|[H|H]]; [|discriminate..].
      injection H as -> ->. split; [reflexivity|]. eauto.
  - intros ds type recs dataset' H Hds' Ht.
    destruct (run_trace w) as [Hq|
      (rd & parameters & s1 & bars & base_path & s2 & customers & sats & links
       & target & tail & dataset & _ & _ & _ & _ & Hq & _ & Hds & _ & Htr)].
    + apply (quiet_elem _ _ Hq) in H. discriminate.
    + rewrite Htr in *.
      apply graph_call_in_writer_calls in H; [|assumption|reflexivity..].
      assert (ds = target) as ->.
      { apply writer_calls_elem in H as [[H _]|[H|H]]; congruence. }
      assert (dataset' = dataset) as -> by congruence.
      apply elem_of_app. right. apply list_elem_of_further.
      by apply writer_calls_query.
Qed.

(** C8 (witness): the sample run, whose target dataset has status READY. *)
Lemma C8_clear_then_write_witness :
  TwingraphQuery "d-target" DELETE_ALL ∈ trace (run bar_world).2
  /\ (exists l1 l2 ds rels nodes,
        trace (run bar_world).2
        = l1 ++ CreateTwingraphEntities ds "relationship" rels :: l2
        /\ CreateTwingraphEntities ds "node" nodes ∈ l1).
Proof.
  assert (Hn : CreateTwingraphEntities "d-target" "node"
                 (Node <$> [ {| n_type := "Bar"; n_name := PyStr "MyBar";
                               n_params := "NbWaiters: 5,RestockQty: 10,Stock: 100" |};
                             {| n_type := "Customer"; n_name := PyStr "c1";
                               n_params := "Name: 'c1',Satisfaction: 3,SurroundingSatisfaction: 2,Thirsty: false" |};
                             {| n_type := "Customer"; n_name := PyStr "c2";
                               n_params := "Name: 'c2',Satisfaction: 0,SurroundingSatisfaction: 1,Thirsty: true" |} ])
               ∈ trace (run bar_world).2).
  { apply (bool_decide_unpack _). vm_compute. reflexivity. }
  split.
  - exact (proj2 (proj2 (proj2 (C8_clear_then_write bar_world))) _ _ _
             {| connector_parameters_values := None; status := PyStr "READY" |}
             Hn eq_refl eq_refl).
  - eexists (firstn 14 (trace (run bar_world).2)), [], "d-target", _.
    assert (E : trace (run bar_world).2
                = firstn 14 (trace (run bar_world).2)
                  ++ CreateTwingraphEntities "d-target" "relationship"
                       (Relationship <$>
                          [ {| r_type := "satisfaction"; r_source := PyStr "c1";
                               r_target := PyStr "c2"; r_name := PyStr "s12";
                               r_params := "a: 'a'" |};
                            {| r_type := "bar_vertex"; r_source := PyStr "MyBar";
                               r_target := PyStr "c1"; r_name := PyStr "b1";
                               r_params := "a: 'a'" |} ]) :: [])
      by (vm_compute; reflexivity).
    destruct (proj1 (proj2 (C8_clear_then_write bar_world)) _ _ _ _ E)
      as [nodes H].
    exists nodes. split; [exact E|exact H].
Defined.

(** ** Relationship records, from the tables to the write *)

Lemma relationship_inv (type : string) (row : Row) (r : RelationshipRecord) :
  relationship type row = Ok r ->
  row !! "source" = Some (r_source r)
  /\ row !! "target" = Some (r_target r)
  /\ row !! "name" = Some (r_name r)
  /\ r_type r = type
  /\ r_params r = "a: 'a'".
Proof.
  unfold relationship, getitem. unfold_result.
  destruct (row !! "source") as [src|]; [|discriminate].
  destruct (row !! "target") as [tgt|]; [|discriminate].
  destruct (row !! "name") as [nm|]; [|discriminate].
  intros H. injection H as <-. repeat split.
Qed.

Lemma relationships_of_inv (type : string) (lines : list (list string))
    (rs : list RelationshipRecord) :
  relationships_of type lines = Ok rs ->
  Forall2 (fun row r =>
             row !! "source" = Some (r_source r)
             /\ row !! "target" = Some (r_target r)
             /\ row !! "name" = Some (r_name r)
             /\ r_type r = type
             /\ r_params r = "a: 'a'") (DictReader lines) rs.
Proof.
  intros H. apply traverse_Forall2 in H.
  eapply Forall2_impl; [exact H|]. intros row r. apply relationship_inv.
Qed.

Lemma read_csv_inv (w : World) (path : string) (s s' : state)
    (lines : list (list string)) :
  read_csv w path s = (Ok lines, s') ->
  s' = s /\ exists text, files s !! path = Some text /\ lines = csv_reader w text.
Proof.
  unfold read_csv, read_file, bind, ret.
  destruct (files s !! path) as [text|]; [|discriminate].
  intros H. injection H as <- <-. eauto.
Qed.

Lemma lift_result_inv {A} (r : result A) (a : A) (s s' : state) :
  lift_result r s = (Ok a, s') -> r = Ok a /\ s' = s.
Proof. unfold lift_result. intros H. injection H as -> <-. by split. Qed.

(** What the mapper read when it succeeds. *)
Lemma csv_entity_mapper_inv (w : World) (base_path : string) (s s' : state)
    (customers : list NodeRecord) (sats links : list RelationshipRecord) :
  csv_entity_mapper w base_path s = (Ok (customers, sats, links), s') ->
  exists customer_lines sat_lines link_lines,
    read_csv w (base_path +:+ "/Nodes/Customer.csv") s = (Ok customer_lines, s)
    /\ customers_of customer_lines = Ok customers
    /\ read_csv w (base_path +:+ "/Edges/arc_Satisfaction.csv") s = (Ok sat_lines, s)
    /\ relationships_of "satisfaction" sat_lines = Ok sats
    /\ read_csv w (base_path +:+ "/Edges/Bar_vertex.csv") s = (Ok link_lines, s)
    /\ relationships_of "bar_vertex" link_lines = Ok links.
Proof.
  unfold csv_entity_mapper. intros H.
  apply bind_inv_ok in H as (lc & s1 & H1 & H).
  pose proof (read_csv_inv _ _ _ _ _ H1) as [-> _].
  apply bind_inv_ok in H as (cs & s2 & H2 & H).
  apply lift_result_inv in H2 as [H2 ->].
  apply bind_inv_ok in H as (ls & s3 & H3 & H).
  pose proof (read_csv_inv _ _ _ _ _ H3) as [-> _].
  apply bind_inv_ok in H as (ss & s4 & H4 & H).
  apply lift_result_inv in H4 as [H4 ->].
  apply bind_inv_ok in H as (ll & s5 & H5 & H).
  pose proof (read_csv_inv _ _ _ _ _ H5) as [-> _].
  apply bind_inv_ok in H as (lk & s6 & H6 & H).
  apply lift_result_inv in H6 as [H6 ->].
  injection H as <- <- <- _.
  exists lc, ls, ll. repeat split; assumption.
Qed.

(** C10: the records of a relationship bulk-create call are the records
    that the mapper made from the two edge tables of the extracted tree,
    the satisfaction ones first, as the mapper made them: each record has
    the source, target and name entries of its row, the type of its table
    and the params text [a: 'a']. *)
Theorem C10_relationships_as_mapped (w : World) (ds : string)
    (recs : list GraphRecord) :
  CreateTwingraphEntities ds "relationship" recs ∈ trace (run w).2 ->
  exists rd parameters s1 base_path s sat_lines link_lines sats links,
    load_parameters w (initial_state w) = (Ok (rd, parameters), s1)
    /\ archive_extractor w parameters s1 = (Ok base_path, s)
    /\ read_csv w (base_path +:+ "/Edges/arc_Satisfaction.csv") s = (Ok sat_lines, s)
    /\ read_csv w (base_path +:+ "/Edges/Bar_vertex.csv") s = (Ok link_lines, s)
    /\ relationships_of "satisfaction" sat_lines = Ok sats
    /\ relationships_of "bar_vertex" link_lines = Ok links
    /\ recs = Relationship <$> sats ++ links
    /\ Forall2 (fun row r =>
                  row !! "source" = Some (r_source r)
                  /\ row !! "target" = Some (r_target r)
                  /\ row !! "name" = Some (r_name r)
                  /\ r_type r = "satisfaction"
                  /\ r_params r = "a: 'a'") (DictReader sat_lines) sats
    /\ Forall2 (fun row r =>
                  row !! "source" = Some (r_source r)
                  /\ row !! "target" = Some (r_target r)
                  /\ row !! "name" = Some (r_name r)
                  /\ r_type r = "bar_vertex"
                  /\ r_params r = "a: 'a'") (DictReader link_lines) links.
Proof.
  intros H.
  destruct (run_trace w) as [Hq|
    (rd & parameters & s1 & bars & base_path & s2 & customers & sats & links
     & target & tail & dataset & E1 & _ & E3 & E4 & Hq & _ & _ & _ & Htr)].
  - apply (quiet_elem _ _ Hq) in H. discriminate.
  - rewrite Htr in H.
    apply graph_call_in_writer_calls in H; [|assumption|reflexivity..].
    apply writer_calls_elem in H as [[H _]|[H|H]]; try discriminate.
    injection H as -> ->.
    apply csv_entity_mapper_inv in E4
      as (lc & ls & ll & _ & _ & R1 & M1 & R2 & M2).
    exists rd, parameters, s1, base_path, s2, ls, ll, sats, links.
    repeat (split; [assumption || reflexivity|]).
    split; by apply relationships_of_inv.
Qed.

(** C10 (witness): the relationship write of the sample run. *)
Lemma C10_relationships_as_mapped_witness :
  exists sat_lines link_lines sats links,
    relationships_of "satisfaction" sat_lines = Ok sats
    /\ relationships_of "bar_vertex" link_lines = Ok links
    /\ Relationship <$>
         [ {| r_type := "satisfaction"; r_source := PyStr "c1";
              r_target := PyStr "c2"; r_name := PyStr "s12";
              r_params := "a: 'a'" |};
           {| r_type := "bar_vertex"; r_source := PyStr "MyBar";
              r_target := PyStr "c1"; r_name := PyStr "b1";
              r_params := "a: 'a'" |} ]
       = Relationship <$> sats ++ links.
Proof.
  assert (Hin : CreateTwingraphEntities "d-target" "relationship"
                  (Relationship <$>
                     [ {| r_type := "satisfaction"; r_source := PyStr "c1";
                          r_target := PyStr "c2"; r_name := PyStr "s12";
                          r_params := "a: 'a'" |};
                       {| r_type := "bar_vertex"; r_source := PyStr "MyBar";
                          r_target := PyStr "c1"; r_name := PyStr "b1";
                          r_params := "a: 'a'" |} ])
                ∈ trace (run bar_world).2).
  { apply (bool_decide_unpack _). vm_compute. reflexivity. }
  destruct (C10_relationships_as_mapped bar_world _ _ Hin)
    as (rd & parameters & s1 & base_path & s & ls & ll & sats & links
        & _ & _ & _ & _ & M1 & M2 & E & _).
  exists ls, ll, sats, links. split; [exact M1|]. split; [exact M2|exact E].
Defined.

(** ** The Bar scenario *)

Lemma config_record_builder_ok (parameters : Parameters)
    (v1 t1 v2 t2 v3 t3 : string) (n1 n2 n3 : Z) :
  parameters !! "num_waiters" = Some (v1, t1) ->
  parameters !! "restock_quantity" = Some (v2, t2) ->
  parameters !! "stock" = Some (v3, t3) ->
  Text.int v1 = Some n1 -> Text.int v2 = Some n2 -> Text.int v3 = Some n3 ->
  config_record_builder parameters
  = Ok [ {| n_type := "Bar";
            n_name := PyStr "MyBar";
            n_params := "NbWaiters: " +:+ Text.of_int n1 +:+ ","
                        +:+ "RestockQty: " +:+ Text.of_int n2 +:+ ","
                        +:+ "Stock: " +:+ Text.of_int n3 |} ].
Proof.
  intros E1 E2 E3 I1 I2 I3.
  unfold config_record_builder, getitem, py_int. unfold_result.
  rewrite E1, E2, E3. cbn [fst]. rewrite I1, I2, I3. reflexivity.
Qed.

Lemma customer_ok_row (fieldnames row : list string) :
  (forall k, k ∈ ["id"; "Satisfaction"; "SurroundingSatisfaction"; "Thirsty"] ->
             k ∈ fieldnames) ->
  exists n, customer (zip_row fieldnames row ∅) = Ok n /\ n_type n = "Customer".
Proof.
  intros H.
  assert (Hhave : forall k,
             k ∈ ["id"; "Satisfaction"; "SurroundingSatisfaction"; "Thirsty"] ->
             exists v, zip_row fieldnames row ∅ !! k = Some v).
  { intros k Hk. apply (zip_row_is_Some fieldnames row ∅ k). left. by apply H. }
  destruct (Hhave "id") as [v1 E1]; [set_solver|].
  destruct (Hhave "Satisfaction") as [v2 E2]; [set_solver|].
  destruct (Hhave "SurroundingSatisfaction") as [v3 E3]; [set_solver|].
  destruct (Hhave "Thirsty") as [v4 E4]; [set_solver|].
  unfold customer, getitem. rewrite E1, E2, E3, E4.
  eexists. split; reflexivity.
Qed.

Lemma relationship_ok_row (type : string) (fieldnames row : list string) :
  (forall k, k ∈ ["source"; "target"; "name"] -> k ∈ fieldnames) ->
  exists r, relationship type (zip_row fieldnames row ∅) = Ok r /\ r_type r = type.
Proof.
  intros H.
  assert (Hhave : forall k, k ∈ ["source"; "target"; "name"] ->
                            exists v, zip_row fieldnames row ∅ !! k = Some v).
  { intros k Hk. apply (zip_row_is_Some fieldnames row ∅ k). left. by apply H. }
  destruct (Hhave "source") as [v1 E1]; [set_solver|].
  destruct (Hhave "target") as [v2 E2]; [set_solver|].
  destruct (Hhave "name") as [v3 E3]; [set_solver|].
  unfold relationship, getitem. rewrite E1, E2, E3.
  eexists. split; reflexivity.
Qed.

Lemma create_calls_quiet (events : list event) :
  quiet events -> create_calls events = [].
Proof.
  induction 1 as [|e l He _ IH]; [reflexivity|].
  unfold create_calls in *. cbn. destruct e; try discriminate; exact IH.
Qed.

Lemma create_calls_app (l1 l2 : list event) :
  create_calls (l1 ++ l2) = create_calls l1 ++ create_calls l2.
Proof. apply List.filter_app. Qed.

(** C9: in the Bar scenario (the three integers 5, 10 and 100, a directory
    for [bar_instance] whose archive extracts, a Customer table with two
    data lines and two edge tables with one data line each, every header
    complete, and a platform that answers the writer), the run ends well and
    issues exactly two bulk-create calls: the node one with the Bar record
    followed by the two Customer records in file order, then the
    relationship one with the satisfaction record followed by the
    bar-vertex record. *)
Theorem C9_bar_scenario (w : World) (rd : RunnerData) (parameters : Parameters)
    (s1 s2 : state) (t1 t2 t3 tb dir target : string) (tail : list string)
    (dataset : Dataset)
    (customer_header c1 c2 sat_header e1 link_header e2 : list string)
    (customer_rest sat_rest link_rest : list (list string)) :
  load_parameters w (initial_state w) = (Ok (rd, parameters), s1) ->
  parameters !! "num_waiters" = Some ("5", t1) ->
  parameters !! "restock_quantity" = Some ("10", t2) ->
  parameters !! "stock" = Some ("100", t3) ->
  parameters !! "bar_instance" = Some (dir, tb) ->
  archive_extractor w parameters s1 = (Ok (dir +:+ "/reference"), s2) ->
  read_csv w ((dir +:+ "/reference") +:+ "/Nodes/Customer.csv") s2
  = (Ok (customer_header :: customer_rest), s2) ->
  data_rows (customer_header :: customer_rest) = [c1; c2] ->
  (forall k, k ∈ ["id"; "Satisfaction"; "SurroundingSatisfaction"; "Thirsty"] ->
             k ∈ customer_header) ->
  read_csv w ((dir +:+ "/reference") +:+ "/Edges/arc_Satisfaction.csv") s2
  = (Ok (sat_header :: sat_rest), s2) ->
  data_rows (sat_header :: sat_rest) = [e1] ->
  (forall k, k ∈ ["source"; "target"; "name"] -> k ∈ sat_header) ->
  read_csv w ((dir +:+ "/reference") +:+ "/Edges/Bar_vertex.csv") s2
  = (Ok (link_header :: link_rest), s2) ->
  data_rows (link_header :: link_rest) = [e2] ->
  (forall k, k ∈ ["source"; "target"; "name"] -> k ∈ link_header) ->
  dataset_list rd = target :: tail ->
  api_find_dataset_by_id w target = Some dataset ->
  (truthy (status dataset) = true ->
   api_twingraph_query w target DELETE_ALL = true) ->
  (forall type recs, is_Some (api_create_twingraph_entities w target type recs)) ->
  exists n1 n2 sat link,
    (run w).1 = Ok tt
    /\ create_calls (trace (run w).2)
       = [ CreateTwingraphEntities target "node"
             [ Node {| n_type := "Bar";
                       n_name := PyStr "MyBar";
                       n_params := "NbWaiters: 5,RestockQty: 10,Stock: 100" |};
               Node n1; Node n2 ];
           CreateTwingraphEntities target "relationship"
             [ Relationship sat; Relationship link ] ]
    /\ customer (zip_row customer_header c1 ∅) = Ok n1
    /\ customer (zip_row customer_header c2 ∅) = Ok n2
    /\ relationship "satisfaction" (zip_row sat_header e1 ∅) = Ok sat
    /\ relationship "bar_vertex" (zip_row link_header e2 ∅) = Ok link
    /\ n_type n1 = "Customer" /\ n_type n2 = "Customer"
    /\ r_type sat = "satisfaction" /\ r_type link = "bar_vertex".
Proof.
  intros E1 P1 P2 P3 Pb E3 Rc Dc Hc Rs Ds Hs Rl Dl Hl Hrd Hds Hq Hcreate.
  destruct (customer_ok_row customer_header c1 Hc) as (n1 & N1 & T1).
  destruct (customer_ok_row customer_header c2 Hc) as (n2 & N2 & T2).
  destruct (relationship_ok_row "satisfaction" sat_header e1 Hs) as (sat & S1 & TS).
  destruct (relationship_ok_row "bar_vertex" link_header e2 Hl) as (link & L1 & TL).
  assert (Ec : customers_of (customer_header :: customer_rest) = Ok [n1; n2]).
  { unfold customers_of. rewrite data_rows_cons, Dc. cbn. rewrite N1, N2.
    reflexivity. }
  assert (Es : relationships_of "satisfaction" (sat_header :: sat_rest) = Ok [sat]).
  { unfold relationships_of. rewrite data_rows_cons, Ds. cbn. rewrite S1.
    reflexivity. }
  assert (El : relationships_of "bar_vertex" (link_header :: link_rest) = Ok [link]).
  { unfold relationships_of. rewrite data_rows_cons, Dl. cbn. rewrite L1.
    reflexivity. }
  assert (Em : csv_entity_mapper w (dir +:+ "/reference") s2
               = (Ok ([n1; n2], [sat], [link]), s2)).
  { unfold csv_entity_mapper.
    erewrite bind_ok by exact Rc. rewrite Ec. erewrite bind_ok by reflexivity.
    erewrite bind_ok by exact Rs. rewrite Es. erewrite bind_ok by reflexivity.
    erewrite bind_ok by exact Rl. rewrite El. erewrite bind_ok by reflexivity.
    reflexivity. }
  pose proof (config_record_builder_ok parameters _ _ _ _ _ _ 5 10 100
                P1 P2 P3 eq_refl eq_refl eq_refl) as Eb.
  assert (Hrun : run w
                 = graph_writer w rd
                     [ {| n_type := "Bar";
                          n_name := PyStr "MyBar";
                          n_params := "NbWaiters: 5,RestockQty: 10,Stock: 100" |} ]
                     [n1; n2] [sat] [link] s2).
  { unfold run, main. erewrite bind_ok by exact E1. cbn [fst snd].
    unfold transform_and_load. rewrite Eb. erewrite bind_ok by reflexivity.
    erewrite bind_ok by exact E3. erewrite bind_ok by exact Em. reflexivity. }
  assert (Q2 : quiet (trace s2)).
  { pose proof (keeps_quiet_archive_extractor w parameters s1) as K.
    rewrite E3 in K. apply K.
    pose proof (keeps_quiet_load_parameters w _ (quiet_initial w)) as K1.
    rewrite E1 in K1. exact K1. }
  exists n1, n2, sat, link.
  split.
  { rewrite Hrun. eapply graph_writer_ok; eauto. }
  split.
  { rewrite Hrun. erewrite graph_writer_events by eassumption.
    rewrite create_calls_app, (create_calls_quiet _ Q2).
    unfold writer_calls.
    destruct (Hcreate "node"
                (Node <$> [ {| n_type := "Bar"; n_name := PyStr "MyBar";
                               n_params := "NbWaiters: 5,RestockQty: 10,Stock: 100" |} ]
                          ++ [n1; n2])) as [cn Hn].
    rewrite Hn.
    destruct (truthy (status dataset)); [rewrite Hq by reflexivity|]; reflexivity. }
  repeat split; assumption.
Qed.

(** C9 (witness): the sample world is such a scenario. *)
Lemma C9_bar_scenario_witness :
  exists n1 n2 sat link,
    (run bar_world).1 = Ok tt
    /\ create_calls (trace (run bar_world).2)
       = [ CreateTwingraphEntities "d-target" "node"
             [ Node {| n_type := "Bar";
                       n_name := PyStr "MyBar";
                       n_params := "NbWaiters: 5,RestockQty: 10,Stock: 100" |};
               Node n1; Node n2 ];
           CreateTwingraphEntities "d-target" "relationship"
             [ Relationship sat; Relationship link ] ]
    /\ n_name n1 = PyStr "c1" /\ n_name n2 = PyStr "c2"
    /\ r_type sat = "satisfaction" /\ r_type link = "bar_vertex".
Proof.
  edestruct (C9_bar_scenario bar_world)
    as (n1 & n2 & sat & link & R & C & N1 & N2 & _ & _ & _ & _ & TS & TL).
  - vm_compute. reflexivity.
  - vm_compute. reflexivity.
  - vm_compute. reflexivity.
  - vm_compute. reflexivity.
  - vm_compute. reflexivity.
  - vm_compute. reflexivity.
  - vm_compute. reflexivity.
  - vm_compute. reflexivity.
  - intros k Hk.
    repeat (apply elem_of_cons in Hk as [->|Hk]);
      [apply (bool_decide_unpack _); vm_compute; reflexivity ..|inversion Hk].
  - vm_compute. reflexivity.
  - vm_compute. reflexivity.
  - intros k Hk.
    repeat (apply elem_of_cons in Hk as [->|Hk]);
      [apply (bool_decide_unpack _); vm_compute; reflexivity ..|inversion Hk].
  - vm_compute. reflexivity.
  - vm_compute. reflexivity.
  - intros k Hk.
    repeat (apply elem_of_cons in Hk as [->|Hk]);
      [apply (bool_decide_unpack _); vm_compute; reflexivity ..|inversion Hk].
  - reflexivity.
  - vm_compute. reflexivity.
  - intros _. reflexivity.
  - intros type recs. cbn. destruct (String.eqb type "node"); eexists; reflexivity.
  - exists n1, n2, sat, link.
    split; [exact R|]. split; [exact C|].
    vm_compute in N1, N2. injection N1 as <-. injection N2 as <-.
    repeat split; assumption.
Defined.

(** ** Relationship endpoints and the identifiers of the store *)

(** C1 (the code on the sample worlds): the store answers the node
    bulk-create call with the identifiers [n1], [n2], [n3] for [MyBar],
    [c1], [c2]; the relationship bulk-create call is nevertheless issued
    with the endpoints as the tables spell them ([c1], [c2], [MyBar]), where
    the disabled lines 178-188 would have sent [n1] and [n2] for the
    bar-vertex record.  When the bar-vertex table names a customer [c9] for
    which the store created no node, the run still ends well and sends
    [c9], where the disabled lines would have raised a key-lookup error. *)
Theorem C1_endpoints_sent_as_read :
  let created := [ {| twin_id := "n1"; entity_id := "MyBar" |};
                   {| twin_id := "n2"; entity_id := "c1" |};
                   {| twin_id := "n3"; entity_id := "c2" |} ] in
  let link := {| r_type := "bar_vertex"; r_source := PyStr "MyBar";
                 r_target := PyStr "c1"; r_name := PyStr "b1";
                 r_params := "a: 'a'" |} in
  let dangling := {| r_type := "bar_vertex"; r_source := PyStr "MyBar";
                     r_target := PyStr "c9"; r_name := PyStr "b9";
                     r_params := "a: 'a'" |} in
  let sat := {| r_type := "satisfaction"; r_source := PyStr "c1";
                r_target := PyStr "c2"; r_name := PyStr "s12";
                r_params := "a: 'a'" |} in
  (forall nodes, api_create_twingraph_entities bar_world "d-target" "node" nodes
                 = Some created)
  /\ (run bar_world).1 = Ok tt
  /\ last (create_calls (trace (run bar_world).2))
     = Some (CreateTwingraphEntities "d-target" "relationship"
               [Relationship sat; Relationship link])
  /\ ids_of created !! "MyBar" = Some "n1"
  /\ ids_of created !! "c1" = Some "n2"
  /\ ids_of created !! "c2" = Some "n3"
  /\ remap_link (ids_of created) link
     = Ok {| r_type := "bar_vertex"; r_source := PyStr "n1";
             r_target := PyStr "n2"; r_name := PyStr "b1";
             r_params := "a: 'a'" |}
  /\ (run dangling_world).1 = Ok tt
  /\ last (create_calls (trace (run dangling_world).2))
     = Some (CreateTwingraphEntities "d-target" "relationship"
               [Relationship sat; Relationship dangling])
  /\ ids_of created !! "c9" = None
  /\ remap_link (ids_of created) dangling = Raise (KeyError "c9").
Proof.
  intros created link dangling sat.
  split; [intros nodes; reflexivity|].
  repeat split; vm_compute; reflexivity.
Qed.

(** * Further properties of the run *)

(** ** What the resolved mapping can hold *)

Lemma resolve_parameter_entry (w : World) (all_api_files : list WorkspaceFile)
    (p : RunParameter) (m m' : Parameters) (s s' : state) :
  resolve_parameter w all_api_files p m s = (Ok m', s') ->
  m' = m
  \/ (var_type p <> DATASETID
      /\ m' = <[parameter_id p := (value p, var_type p)]> m)
  \/ (var_type p = DATASETID
      /\ exists root, env_parameters_absolute_path w = Some root
                      /\ m' = <[parameter_id p
                                := (root +:+ "/" +:+ parameter_id p, var_type p)]> m).
Proof.
  intros H. unfold resolve_parameter in H.
  destruct (String.eqb (var_type p) DATASETID) eqn:Et.
  - apply String.eqb_eq in Et.
    apply bind_inv_ok in H as (dataset & s1 & _ & H).
    apply bind_inv_ok in H as (param_values & s2 & _ & H).
    destruct (param_values !! BLOB_PREFIX_KEY) as [prefix|].
    + destruct (not_downloadable (Some prefix)).
      * injection H as <- _. by left.
      * apply bind_inv_ok in H as (dir & s3 & Hd & H).
        injection H as <- _. right. right. split; [exact Et|].
        unfold download_dataset in Hd.
        destruct (env_parameters_absolute_path w) as [root|]; [|discriminate].
        erewrite bind_ok in Hd by reflexivity.
        apply bind_inv_ok in Hd as (u1 & s4 & _ & Hd).
        apply bind_inv_ok in Hd as (u2 & s5 & _ & Hd).
        injection Hd as <- _. eauto.
    + injection H as <- _. by left.
  - apply String.eqb_neq in Et. injection H as <- _. right. left. by split.
Qed.

(** X1: whatever the resolver returns, an entry of the resolved mapping comes
    from a parameter of the list with that name and that type: a literal
    parameter gives its own value, a dataset parameter gives the directory
    made of the parameters root, a slash and the parameter name, never the
    dataset identifier. *)
Theorem resolved_entries_come_from_parameters (w : World)
    (all_api_files : list WorkspaceFile) (params : list RunParameter)
    (resolved : Parameters) (s s' : state) (k v t : string) :
  parameter_resolver w all_api_files params ∅ s = (Ok resolved, s') ->
  resolved !! k = Some (v, t) ->
  exists p, p ∈ params
            /\ parameter_id p = k
            /\ var_type p = t
            /\ (t <> DATASETID -> v = value p)
            /\ (t = DATASETID ->
                exists root, env_parameters_absolute_path w = Some root
                             /\ v = root +:+ "/" +:+ k).
Proof.
  assert (G : forall m0 s0,
             parameter_resolver w all_api_files params m0 s0 = (Ok resolved, s') ->
             resolved !! k = Some (v, t) ->
             m0 !! k = Some (v, t)
             \/ exists p, p ∈ params
                          /\ parameter_id p = k
                          /\ var_type p = t
                          /\ (t <> DATASETID -> v = value p)
                          /\ (t = DATASETID ->
                              exists root, env_parameters_absolute_path w = Some root
                                           /\ v = root +:+ "/" +:+ k)).
  { clear s. induction params as [|p params IH]; intros m0 s0 H Hk.
    - injection H as <- _. by left.
    - cbn [parameter_resolver] in H.
      apply bind_inv_ok in H as (m1 & s1 & H1 & H).
      destruct (IH _ _ H Hk) as [Hm1|(q & Hq & Hrest)].
      2:{ right. exists q. split; [by apply list_elem_of_further|exact Hrest]. }
      apply resolve_parameter_entry in H1
        as [->|[[Hty ->]|(Hty & root & Henv & ->)]].
      + by left.
      + destruct (decide (parameter_id p = k)) as [E|E].
        * rewrite E, lookup_insert_eq in Hm1. injection Hm1 as <- <-.
          right. exists p. split; [apply list_elem_of_here|].
          split; [exact E|]. split; [reflexivity|].
          split; intros; [reflexivity|contradiction].
        * rewrite lookup_insert_ne in Hm1 by assumption. by left.
      + destruct (decide (parameter_id p = k)) as [E|E].
        * rewrite E, lookup_insert_eq in Hm1. injection Hm1 as <- <-.
          right. exists p. split; [apply list_elem_of_here|].
          split; [exact E|]. split; [reflexivity|].
          split; intros; [contradiction|]. rewrite <- E. eauto.
        * rewrite lookup_insert_ne in Hm1 by assumption. by left. }
  intros H Hk. destruct (G _ _ H Hk) as [Hempty|Hp]; [|exact Hp].
  rewrite lookup_empty in Hempty. discriminate.
Qed.

(** X1 (witness): the entry [bar_instance] of the sample run. *)
Lemma resolved_entries_come_from_parameters_witness :
  exists p, p ∈ bar_params
            /\ parameter_id p = "bar_instance"
            /\ var_type p = DATASETID
            /\ (DATASETID <> DATASETID -> "/mnt/params/bar_instance" = value p)
            /\ (DATASETID = DATASETID ->
                exists root, env_parameters_absolute_path bar_world = Some root
                             /\ "/mnt/params/bar_instance" = root +:+ "/" +:+ "bar_instance").
Proof.
  eapply (resolved_entries_come_from_parameters bar_world bar_files bar_params
            _ (initial_state bar_world) _ "bar_instance").
  - vm_compute. reflexivity.
  - vm_compute. reflexivity.
Defined.

(** ** A dataset parameter that cannot be resolved *)



(** ** The download loop *)

Lemma download_files_app (w : World) (dir : string) (l1 l2 : list string)
    (s : state) :
  download_files w dir (l1 ++ l2) s
  = bind (download_files w dir l1) (fun _ => download_files w dir l2) s.
Proof.
  revert s. induction l1 as [|name l1 IH]; intros s; [reflexivity|].
  cbn [app download_files]. unfold bind.
  destruct (download_workspace_file w name s) as [[c|e] s1]; [|reflexivity].
  destruct (write_file w (target_file dir name) c s1) as [[u|e] s2];
    [rewrite IH|]; reflexivity.
Qed.

Lemma download_files_state (w : World) (dir : string) (names : list string)
    (s : state) :
  (forall name, name ∈ names ->
     is_Some (api_download_workspace_file w name)
     /\ os_open_wb_ok w (target_file dir name) = true) ->
  download_files w dir names s
  = (Ok tt,
     {| files := downloaded w dir names (files s);
        trace := trace s ++
                 flat_map (fun name =>
                             download_events dir name
                               (default "" (api_download_workspace_file w name)))
                   names |}).
Proof.
  revert s. induction names as [|name names IH]; intros s H.
  - cbn. rewrite app_nil_r. by destruct s.
  - destruct (H name) as [[content Hc] Hw]; [apply list_elem_of_here|].
    cbn [download_files]. unfold_run. cbn [files trace]. rewrite Hc, Hw.
    rewrite IH by (intros n Hn; apply H; by apply list_elem_of_further).
    cbn [files trace flat_map download_events downloaded foldl default].
    rewrite Hc. cbn [default]. unfold downloaded.
    rewrite <- !app_assoc. reflexivity.
Qed.

(** X3: when the download of one matching file fails, or its local file
    cannot be opened, the loop stops there with that error: the files before
    it stay written, the failed download is the last call issued, and the
    files after it are never requested. *)
Theorem download_stops_at_first_failure (w : World) (dir : string)
    (pre post : list string) (name : string) (s : state) :
  (forall n, n ∈ pre ->
     is_Some (api_download_workspace_file w n)
     /\ os_open_wb_ok w (target_file dir n) = true) ->
  let stopped :=
    {| files := downloaded w dir pre (files s);
       trace := (trace s ++
                 flat_map (fun n =>
                             download_events dir n
                               (default "" (api_download_workspace_file w n))) pre)
                ++ [DownloadWorkspaceFile name] |} in
  (api_download_workspace_file w name = None ->
   download_files w dir (pre ++ name :: post) s = (Raise ApiException, stopped))
  /\ (forall content,
        api_download_workspace_file w name = Some content ->
        os_open_wb_ok w (target_file dir name) = false ->
        download_files w dir (pre ++ name :: post) s
        = (Raise (OSError (target_file dir name)), stopped)).
Proof.
  intros Hpre stopped. split.
  - intros Hn. rewrite download_files_app.
    erewrite bind_ok by (apply download_files_state, Hpre).
    cbn [download_files]. unfold_run. cbn [files trace]. rewrite Hn. reflexivity.
  - intros content Hn Hw. rewrite download_files_app.
    erewrite bind_ok by (apply download_files_state, Hpre).
    cbn [download_files]. unfold_run. cbn [files trace]. rewrite Hn, Hw.
    reflexivity.
Qed.

(** X3 (witness): on the sample platform the archive downloads and the
    notes file does not. *)
Lemma download_stops_at_first_failure_witness :
  download_files bar_world "/mnt/params/bar_instance"
    (["brewery/brewery_instance.zip"] ++ "notes/readme.txt" :: ["never/asked"])
    (initial_state bar_world)
  = (Raise ApiException,
     {| files := {[ "/mnt/params/bar_instance/brewery_instance.zip" := "PK" ]};
        trace := [ DownloadWorkspaceFile "brewery/brewery_instance.zip";
                   WriteFile "/mnt/params/bar_instance/brewery_instance.zip" "PK";
                   DownloadWorkspaceFile "notes/readme.txt" ] |}).
Proof.
  refine (proj1 (download_stops_at_first_failure bar_world
                   "/mnt/params/bar_instance" ["brewery/brewery_instance.zip"]
                   ["never/asked"] "notes/readme.txt" (initial_state bar_world) _)
            eq_refl).
  intros n Hn. apply list_elem_of_singleton in Hn as ->.
  split; [exists "PK"|]; reflexivity.
Defined.

Lemma downloaded_app (w : World) (dir : string) (l1 l2 : list string)
    (fs : gmap string string) :
  downloaded w dir (l1 ++ l2) fs = downloaded w dir l2 (downloaded w dir l1 fs).
Proof. unfold downloaded. apply foldl_app. Qed.

Lemma downloaded_other (w : World) (dir : string) (names : list string)
    (fs : gmap string string) (path : string) :
  (forall n, n ∈ names -> target_file dir n <> path) ->
  downloaded w dir names fs !! path = fs !! path.
Proof.
  unfold downloaded. revert fs.
  induction names as [|name names IH]; intros fs H; [reflexivity|].
  cbn [foldl].
  rewrite IH by (intros n Hn; apply H; by apply list_elem_of_further).
  apply lookup_insert_ne, H, list_elem_of_here.
Qed.

(** X4: after a download loop that went through, the local file of a
    remote name holds the content of that name unless a later name of the
    loop has the same local file (then the later one has replaced it), and
    a path that is the local file of no name of the loop is as it was. *)
Theorem later_download_replaces_earlier (w : World) (dir : string)
    (pre post : list string) (name : string) (s : state) :
  (forall n, n ∈ pre ++ name :: post ->
     is_Some (api_download_workspace_file w n)
     /\ os_open_wb_ok w (target_file dir n) = true) ->
  (forall n, n ∈ post -> target_file dir n <> target_file dir name) ->
  exists s',
    download_files w dir (pre ++ name :: post) s = (Ok tt, s')
    /\ files s' !! target_file dir name = api_download_workspace_file w name
    /\ (forall path,
          (forall n, n ∈ pre ++ name :: post -> target_file dir n <> path) ->
          files s' !! path = files s !! path).
Proof.
  intros Hall Hpost. eexists. split; [apply download_files_state, Hall|].
  cbn [files]. split.
  - rewrite downloaded_app.
    change (downloaded w dir (name :: post) (downloaded w dir pre (files s)))
      with (downloaded w dir post
              (<[target_file dir name
                 := default "" (api_download_workspace_file w name)]>
                 (downloaded w dir pre (files s)))).
    rewrite downloaded_other by exact Hpost. rewrite lookup_insert_eq.
    destruct (Hall name) as [[c ->] _]; [|reflexivity].
    apply elem_of_app. right. apply list_elem_of_here.
  - intros path Hpath. by apply downloaded_other.
Qed.

Lemma last_segment_after_slash (a b : string) :
  Text.last_segment (a +:+ "/" +:+ b) = Text.last_segment b.
Proof.
  unfold Text.last_segment. induction a as [|c a IH].
  - change ("" +:+ "/" +:+ b) with (String "/" b). cbn [Text.split].
    rewrite Ascii.eqb_refl. apply last_cons_nonempty, split_nonempty.
  - rewrite append_cons. destruct (Ascii.eqb c "/") eqn:Ec.
    + cbn [Text.split]. rewrite Ec.
      rewrite last_cons_nonempty by apply split_nonempty. exact IH.
    + rewrite last_split_cons; [exact IH|exact Ec|].
      rewrite has_char_append. change ("/" +:+ b) with (String "/" b).
      cbn [Text.has_char]. rewrite Ascii.eqb_refl. apply orb_true_r.
Qed.

(** X5: the directory part of a remote name plays no role in its local
    name: a name and the same name under any remote directory are written to
    the same local file, so two workspace files that differ only by their
    directory collide. *)
Theorem remote_directory_is_discarded (dir a b : string) :
  target_file dir (a +:+ "/" +:+ b) = target_file dir b.
Proof. unfold target_file. by rewrite last_segment_after_slash. Qed.

(** X4 (witness): two workspace files named [x.csv] in different remote
    directories: the local [x.csv] holds the second one. *)
Lemma later_download_replaces_earlier_witness :
  exists s',
    download_files twin_names_world "/d" (["a/x.csv"] ++ "b/x.csv" :: [])
      (initial_state twin_names_world) = (Ok tt, s')
    /\ files s' !! "/d/x.csv" = Some "two".
Proof.
  destruct (later_download_replaces_earlier twin_names_world "/d"
              ["a/x.csv"] [] "b/x.csv" (initial_state twin_names_world))
    as (s' & H1 & H2 & _).
  - intros n Hn.
    apply elem_of_cons in Hn as [->|Hn]; [split; [exists "one"|]; reflexivity|].
    apply list_elem_of_singleton in Hn as ->. split; [exists "two"|]; reflexivity.
  - intros n Hn. inversion Hn.
  - exists s'. split; [exact H1|exact H2].
Defined.

(** ** Archive Extractor *)

Lemma extractall_state (w : World) (base_path : string)
    (members : list (string * string)) (s : state) :
  (forall member, member ∈ members ->
     os_open_wb_ok w (Text.path_join base_path member.1) = true) ->
  extractall w base_path members s
  = (Ok tt, {| files := extracted base_path members (files s);
               trace := trace s ++ extract_events base_path members |}).
Proof.
  unfold extracted, extract_events. revert s.
  induction members as [|[name content] members IH]; intros s H.
  - cbn. rewrite app_nil_r. by destruct s.
  - cbn [extractall]. unfold bind, extract_file.
    pose proof (H (name, content) (list_elem_of_here _ _)) as Hw.
    cbn [fst] in Hw. rewrite Hw.
    rewrite IH by (intros m Hm; apply H; by apply list_elem_of_further).
    cbn [files trace foldl fst snd]. rewrite fmap_cons. cbn [fst snd].
    rewrite <- app_assoc. reflexivity.
Qed.

Lemma extractall_inv (w : World) (base_path : string)
    (members : list (string * string)) (s s' : state) (u : unit) :
  extractall w base_path members s = (Ok u, s') ->
  forall member, member ∈ members ->
    os_open_wb_ok w (Text.path_join base_path member.1) = true.
Proof.
  revert s. induction members as [|[name content] members IH]; intros s H m Hm.
  - inversion Hm.
  - cbn [extractall] in H. apply bind_inv_ok in H as (u1 & s1 & H1 & H).
    apply elem_of_cons in Hm as [->|Hm]; [|by eapply IH].
    unfold extract_file in H1. cbn [fst].
    destruct (os_open_wb_ok w (Text.path_join base_path name));
      [reflexivity|discriminate].
Qed.

(** X6: the extractor fails without touching a file or issuing a call when
    the archive [brewery_instance.zip] is not in the directory of
    [bar_instance] (file not found) and when that file is not a zip archive
    (bad zip file). *)
Theorem archive_missing_or_corrupt (w : World) (parameters : Parameters)
    (base_path t : string) (s : state) :
  parameters !! "bar_instance" = Some (base_path, t) ->
  (files s !! (base_path +:+ "/brewery_instance.zip") = None ->
   archive_extractor w parameters s
   = (Raise (FileNotFoundError (base_path +:+ "/brewery_instance.zip")), s))
  /\ (forall archive,
        files s !! (base_path +:+ "/brewery_instance.zip") = Some archive ->
        zip_members w archive = None ->
        archive_extractor w parameters s
        = (Raise (BadZipFile (base_path +:+ "/brewery_instance.zip")), s)).
Proof.
  intros Hb. unfold archive_extractor, getitem. rewrite Hb.
  erewrite bind_ok by reflexivity. cbn [fst]. split.
  - intros Hf. erewrite bind_raise; [reflexivity|].
    unfold read_file. rewrite Hf. reflexivity.
  - intros archive Hf Hz.
    erewrite bind_ok by (unfold read_file; rewrite Hf; reflexivity).
    rewrite Hz. reflexivity.
Qed.

(** X6 (witness): a literal [bar_instance] that names an empty directory,
    and one whose archive file is a text. *)
Lemma archive_missing_or_corrupt_witness :
  archive_extractor bar_world {[ "bar_instance" := ("/empty", "string") ]}
    (initial_state bar_world)
  = (Raise (FileNotFoundError "/empty/brewery_instance.zip"),
     initial_state bar_world)
  /\ archive_extractor bar_world {[ "bar_instance" := ("/t", "string") ]}
       {| files := {[ "/t/brewery_instance.zip" := "hello" ]}; trace := [] |}
     = (Raise (BadZipFile "/t/brewery_instance.zip"),
        {| files := {[ "/t/brewery_instance.zip" := "hello" ]}; trace := [] |}).
Proof.
  split.
  - exact (proj1 (archive_missing_or_corrupt bar_world
                    {[ "bar_instance" := ("/empty", "string") ]}
                    "/empty" "string" (initial_state bar_world) eq_refl) eq_refl).
  - exact (proj2 (archive_missing_or_corrupt bar_world
                    {[ "bar_instance" := ("/t", "string") ]} "/t" "string"
                    {| files := {[ "/t/brewery_instance.zip" := "hello" ]};
                       trace := [] |} eq_refl) "hello" eq_refl eq_refl).
Defined.






Lemma extracted_union (base_path : string) (members : list (string * string))
    (fs : gmap string string) :
  extracted base_path members fs
  = list_to_map (reverse ((fun member =>
                             (Text.path_join base_path member.1, member.2))
                            <$> members)) ∪ fs.
Proof.
  unfold extracted. revert fs.
  induction members as [|m members IH]; intros fs.
  - cbn. by rewrite (left_id_L ∅ (∪)).
  - cbn [foldl]. rewrite IH, fmap_cons, reverse_cons, list_to_map_app.
    rewrite <- (assoc_L (∪)). f_equal. cbn [list_to_map foldr].
    rewrite insert_union_singleton_l. reflexivity.
Qed.

Lemma extracted_twice (base_path : string) (members : list (string * string))
    (fs : gmap string string) :
  extracted base_path members (extracted base_path members fs)
  = extracted base_path members fs.
Proof.
  rewrite !extracted_union, (assoc_L (∪)). f_equal. apply (idemp_L (∪)).
Qed.

Lemma archive_extractor_inv (w : World) (parameters : Parameters)
    (r : string) (s s' : state) :
  archive_extractor w parameters s = (Ok r, s') ->
  exists base_path t archive members,
    parameters !! "bar_instance" = Some (base_path, t)
    /\ files s !! (base_path +:+ "/brewery_instance.zip") = Some archive
    /\ zip_members w archive = Some members
    /\ (forall member, member ∈ members ->
          os_open_wb_ok w (Text.path_join base_path member.1) = true)
    /\ r = base_path +:+ "/reference"
    /\ s' = {| files := extracted base_path members (files s);
               trace := trace s ++ extract_events base_path members |}.
Proof.
  unfold archive_extractor, getitem. intros H.
  destruct (parameters !! "bar_instance") as [[base_path t]|] eqn:Hb;
    [|discriminate].
  erewrite bind_ok in H by reflexivity. cbn [fst] in H.
  apply bind_inv_ok in H as (archive & s1 & H1 & H).
  unfold read_file in H1.
  destruct (files s !! (base_path +:+ "/brewery_instance.zip")) as [a|] eqn:Hf;
    [|discriminate].
  injection H1 as -> <-.
  destruct (zip_members w archive) as [members|] eqn:Hz; [|discriminate].
  erewrite bind_ok in H by reflexivity.
  apply bind_inv_ok in H as (u & s2 & H2 & H).
  pose proof (extractall_inv _ _ _ _ _ _ H2) as Hw.
  rewrite extractall_state in H2 by exact Hw. injection H2 as E2. subst s2.
  injection H as <- <-.
  exists base_path, t, archive, members. repeat split; assumption || reflexivity.
Qed.

(** X8: extracting a second time changes nothing: after a successful
    extraction that left the archive file itself as it was, the extractor
    succeeds again with the same answer and leaves every local file as the
    first extraction left it. *)
Theorem extraction_is_idempotent (w : World) (parameters : Parameters)
    (base_path t r : string) (s s1 : state) :
  parameters !! "bar_instance" = Some (base_path, t) ->
  archive_extractor w parameters s = (Ok r, s1) ->
  files s1 !! (base_path +:+ "/brewery_instance.zip")
  = files s !! (base_path +:+ "/brewery_instance.zip") ->
  exists s2,
    archive_extractor w parameters s1 = (Ok r, s2)
    /\ files s2 = files s1.
Proof.
  intros Hb H Hzip.
  apply archive_extractor_inv in H
    as (b & t' & archive & members & Hb' & Hf & Hz & Hw & -> & ->).
  rewrite Hb in Hb'. injection Hb' as <- <-.
  cbn [files] in Hzip. rewrite Hf in Hzip.
  eexists. split.
  - unfold archive_extractor, getitem. rewrite Hb.
    erewrite bind_ok by reflexivity. cbn [fst].
    erewrite bind_ok by (unfold read_file; cbn [files]; rewrite Hzip; reflexivity).
    rewrite Hz. erewrite bind_ok by reflexivity.
    erewrite bind_ok by (apply extractall_state, Hw). reflexivity.
  - cbn [files]. apply extracted_twice.
Qed.

(** X8 (witness): the archive of the sample world, extracted twice. *)
Lemma extraction_is_idempotent_witness :
  exists s1 s2,
    archive_extractor bar_world
      {[ "bar_instance" := ("/mnt/params/bar_instance", DATASETID) ]}
      {| files := {[ "/mnt/params/bar_instance/brewery_instance.zip" := "PK" ]};
         trace := [] |}
    = (Ok "/mnt/params/bar_instance/reference", s1)
    /\ archive_extractor bar_world
         {[ "bar_instance" := ("/mnt/params/bar_instance", DATASETID) ]} s1
       = (Ok "/mnt/params/bar_instance/reference", s2)
    /\ files s2 = files s1.
Proof.
  eexists.
  edestruct (extraction_is_idempotent bar_world
               {[ "bar_instance" := ("/mnt/params/bar_instance", DATASETID) ]}
               "/mnt/params/bar_instance" DATASETID
               "/mnt/params/bar_instance/reference"
               {| files := {[ "/mnt/params/bar_instance/brewery_instance.zip" := "PK" ]};
                  trace := [] |})
    as (s2 & H1 & H2).
  - vm_compute. reflexivity.
  - vm_compute. reflexivity.
  - vm_compute. reflexivity.
  - exists s2. split; [vm_compute; reflexivity|]. split; [exact H1|exact H2].
Defined.

(** ** More on the CSV Entity Mapper *)

(** X9: for an edge table whose header line names source, target and name
    (no name twice), the mapper yields one relationship record per data
    line, in file order, of the type of the table, with the three fields of
    the line and the fixed params text; a field that a short line lacks
    reads as None and is no error.  A header that lacks one of the three
    columns is a fatal key-lookup error as soon as there is a data line. *)
Theorem relationships_follow_the_table (type : string) (fieldnames : list string)
    (rest : list (list string)) :
  (forall j_source j_target j_name,
      NoDup fieldnames ->
      fieldnames !! j_source = Some "source" ->
      fieldnames !! j_target = Some "target" ->
      fieldnames !! j_name = Some "name" ->
      relationships_of type (fieldnames :: rest)
      = Ok ((fun row => {| r_type := type;
                           r_source := field row j_source;
                           r_target := field row j_target;
                           r_name := field row j_name;
                           r_params := "a: 'a'" |})
              <$> data_rows (fieldnames :: rest)))
  /\ (forall k,
        k ∈ ["source"; "target"; "name"] ->
        k ∉ fieldnames ->
        data_rows (fieldnames :: rest) <> [] ->
        exists k', (k' ∉ fieldnames)
                   /\ relationships_of type (fieldnames :: rest)
                      = Raise (KeyError k')).
Proof.
  split.
  - intros j_source j_target j_name Hnd Hs Ht Hn.
    unfold relationships_of. rewrite data_rows_cons.
    apply traverse_fmap_ok. intros row _.
    unfold relationship, getitem.
    rewrite !(zip_row_field fieldnames row ∅ _ _ Hnd) by eassumption.
    reflexivity.
  - intros k Hk Hnot Hrows.
    unfold relationships_of. rewrite data_rows_cons.
    destruct (data_rows (fieldnames :: rest)) as [|row rows]; [congruence|].
    rewrite fmap_cons.
    assert (Hmiss : forall key, key ∉ fieldnames ->
                                zip_row fieldnames row ∅ !! key = None).
    { intros key Hkey. rewrite zip_row_other by assumption. apply lookup_empty. }
    assert (Hhave : forall key, key ∈ fieldnames ->
                                exists v, zip_row fieldnames row ∅ !! key = Some v).
    { intros key Hkey. apply (zip_row_is_Some fieldnames row ∅ key). by left. }
    destruct (decide ("source" ∈ fieldnames)) as [Hs|Hs].
    2:{ exists "source". split; [assumption|]. apply traverse_head_raise.
        unfold relationship, getitem. rewrite (Hmiss _ Hs). reflexivity. }
    destruct (Hhave _ Hs) as [vs Es].
    destruct (decide ("target" ∈ fieldnames)) as [Ht|Ht].
    2:{ exists "target". split; [assumption|]. apply traverse_head_raise.
        unfold relationship, getitem. rewrite (Hmiss _ Ht), Es. reflexivity. }
    destruct (Hhave _ Ht) as [vt Et].
    destruct (decide ("name" ∈ fieldnames)) as [Hn|Hn].
    2:{ exists "name". split; [assumption|]. apply traverse_head_raise.
        unfold relationship, getitem. rewrite (Hmiss _ Hn), Es, Et.
        reflexivity. }
    exfalso.
    repeat match goal with
           | H : _ ∈ _ :: _ |- _ => apply elem_of_cons in H as [->|H]
           | H : _ ∈ [] |- _ => inversion H
           end; contradiction.
Qed.

(** X9 (witness): the satisfaction table of the sample world, and a table
    without a name column. *)
Lemma relationships_follow_the_table_witness :
  relationships_of "satisfaction" (csv_reader bar_world arc_satisfaction_csv)
  = Ok [ {| r_type := "satisfaction"; r_source := PyStr "c1";
            r_target := PyStr "c2"; r_name := PyStr "s12";
            r_params := "a: 'a'" |} ]
  /\ (exists k', (k' ∉ ["source"; "target"])
                 /\ relationships_of "bar_vertex" [["source"; "target"]; ["a"; "b"]]
                    = Raise (KeyError k')).
Proof.
  split.
  - refine (proj1 (relationships_follow_the_table "satisfaction"
              ["source"; "target"; "name"] [["c1"; "c2"; "s12"]])
              0 1 2 _ eq_refl eq_refl eq_refl).
    apply (bool_decide_unpack _). vm_compute. reflexivity.
  - refine (proj2 (relationships_follow_the_table "bar_vertex"
              ["source"; "target"] [["a"; "b"]]) "name" _ _ _).
    + apply (bool_decide_unpack _). vm_compute. reflexivity.
    + apply (bool_decide_unpack _). vm_compute. reflexivity.
    + discriminate.
Defined.

Lemma data_rows_blank (fieldnames : list string) (l1 l2 : list (list string)) :
  data_rows (fieldnames :: l1 ++ [] :: l2) = data_rows (fieldnames :: l1 ++ l2).
Proof. unfold data_rows. rewrite !List.filter_app. reflexivity. Qed.

(** X10: a blank line after the header yields no record: a table with a
    blank line among its data lines is mapped, by all three readers, as the
    table without that line. *)
Theorem blank_lines_are_passed_over (type : string) (fieldnames : list string)
    (l1 l2 : list (list string)) :
  DictReader (fieldnames :: l1 ++ [] :: l2) = DictReader (fieldnames :: l1 ++ l2)
  /\ customers_of (fieldnames :: l1 ++ [] :: l2)
     = customers_of (fieldnames :: l1 ++ l2)
  /\ relationships_of type (fieldnames :: l1 ++ [] :: l2)
     = relationships_of type (fieldnames :: l1 ++ l2).
Proof.
  assert (E : DictReader (fieldnames :: l1 ++ [] :: l2)
              = DictReader (fieldnames :: l1 ++ l2)).
  { rewrite !data_rows_cons, data_rows_blank. reflexivity. }
  unfold customers_of, relationships_of. rewrite E. repeat split.
Qed.

Lemma zip_row_take (fieldnames row : list string) (d : Row) :
  zip_row fieldnames (take (length fieldnames) row) d = zip_row fieldnames row d.
Proof.
  revert row d. induction fieldnames as [|key keys IH]; intros row d.
  - destruct row; reflexivity.
  - destruct row as [|v vs]; [reflexivity|].
    cbn [length take zip_row]. apply IH.
Qed.

(** X11: fields of a data line beyond the columns of the header are never
    read: a line is mapped as the line cut to the length of the header, so
    two lines that agree on the columns of the header give the same
    customer record and the same relationship record. *)
Theorem surplus_fields_are_ignored (type : string)
    (fieldnames row row' : list string) :
  take (length fieldnames) row = take (length fieldnames) row' ->
  customer (zip_row fieldnames row ∅) = customer (zip_row fieldnames row' ∅)
  /\ relationship type (zip_row fieldnames row ∅)
     = relationship type (zip_row fieldnames row' ∅).
Proof.
  intros H.
  rewrite <- (zip_row_take fieldnames row), <- (zip_row_take fieldnames row'), H.
  by split.
Qed.

(** X11 (witness): an edge line with a fourth field. *)
Lemma surplus_fields_are_ignored_witness :
  relationship "satisfaction"
    (zip_row ["source"; "target"; "name"] ["c1"; "c2"; "s12"; "extra"] ∅)
  = relationship "satisfaction"
      (zip_row ["source"; "target"; "name"] ["c1"; "c2"; "s12"] ∅).
Proof.
  exact (proj2 (surplus_fields_are_ignored "satisfaction"
                  ["source"; "target"; "name"] ["c1"; "c2"; "s12"; "extra"]
                  ["c1"; "c2"; "s12"] eq_refl)).
Defined.

(** ** More on the Graph Writer and the run *)

Lemma graph_calls_app (l1 l2 : list event) :
  graph_calls (l1 ++ l2) = graph_calls l1 ++ graph_calls l2.
Proof. apply List.filter_app. Qed.

Lemma graph_calls_quiet (events : list event) :
  quiet events -> graph_calls events = [].
Proof.
  induction 1 as [|e l He _ IH]; [reflexivity|].
  unfold graph_calls in *. cbn. rewrite He. exact IH.
Qed.

Lemma graph_writer_ok_inv (w : World) (rd : RunnerData)
    (bars customers : list NodeRecord) (sats links : list RelationshipRecord)
    (s : state) (u : unit) :
  (graph_writer w rd bars customers sats links s).1 = Ok u ->
  exists target tail dataset,
    dataset_list rd = target :: tail
    /\ api_find_dataset_by_id w target = Some dataset
    /\ (truthy (status dataset) = true ->
        api_twingraph_query w target DELETE_ALL = true)
    /\ is_Some (api_create_twingraph_entities w target "node"
                  (Node <$> bars ++ customers))
    /\ is_Some (api_create_twingraph_entities w target "relationship"
                  (Relationship <$> sats ++ links)).
Proof.
  unfold graph_writer. destruct (dataset_list rd) as [|target tail] eqn:Hrd;
    [discriminate|].
  unfold_run. cbn [index0 files trace].
  destruct (api_find_dataset_by_id w target) as [dataset|] eqn:Hds;
    [|discriminate].
  destruct (truthy (status dataset)) eqn:Et;
    destruct (api_twingraph_query w target DELETE_ALL) eqn:Eq;
    destruct (api_create_twingraph_entities w target "node"
                (Node <$> bars ++ customers)) eqn:En;
    destruct (api_create_twingraph_entities w target "relationship"
                (Relationship <$> sats ++ links)) eqn:Er;
    cbn [files trace fst]; intros H; try discriminate;
    exists target, tail, dataset;
    (split; [reflexivity|]); (split; [exact Hds|]);
    (split; [intros; congruence|]);
    (split; [rewrite En|rewrite Er]); eauto.
Qed.

(** X12: a run that ends well has issued, in this order and nothing else on
    the graph: the delete-all query when the status of the target dataset is
    truthy, one node bulk-create call and one relationship bulk-create
    call. *)
Theorem successful_run_writes_once (w : World) :
  (run w).1 = Ok tt ->
  exists target dataset nodes rels,
    api_find_dataset_by_id w target = Some dataset
    /\ graph_calls (trace (run w).2)
       = (if truthy (status dataset)
          then [TwingraphQuery target DELETE_ALL] else [])
         ++ [ CreateTwingraphEntities target "node" nodes;
              CreateTwingraphEntities target "relationship" rels ].
Proof.
  intros Hok.
  destruct (run_cases w) as [(e & s & Hrun & _)|
    (rd & parameters & s1 & bars & base_path & s2 & customers & sats & links
     & _ & _ & _ & _ & Hq & Hrun)].
  { rewrite Hrun in Hok. discriminate. }
  rewrite Hrun in Hok |- *.
  apply graph_writer_ok_inv in Hok
    as (target & tail & dataset & Hrd & Hds & Hqy & [cn Hn] & [cr Hr]).
  exists target, dataset, (Node <$> bars ++ customers),
    (Relationship <$> sats ++ links).
  split; [exact Hds|].
  erewrite graph_writer_events by eassumption.
  rewrite graph_calls_app, (graph_calls_quiet _ Hq).
  unfold writer_calls. rewrite Hn.
  destruct (truthy (status dataset)); [rewrite Hqy by reflexivity|]; reflexivity.
Qed.

(** X12 (witness): the sample run. *)
Lemma successful_run_writes_once_witness :
  exists target dataset nodes rels,
    api_find_dataset_by_id bar_world target = Some dataset
    /\ graph_calls (trace (run bar_world).2)
       = (if truthy (status dataset)
          then [TwingraphQuery target DELETE_ALL] else [])
         ++ [ CreateTwingraphEntities target "node" nodes;
              CreateTwingraphEntities target "relationship" rels ].
Proof.
  apply successful_run_writes_once. vm_compute. reflexivity.
Defined.

(** X13: the writer stops at the first call that the platform refuses.  A
    refused delete-all query leaves the graph unwritten: no bulk-create call
    follows.  A refused node bulk-create call comes after the graph was
    cleared and is followed by no relationship call.  A refused relationship
    call comes after the nodes were written. *)
Theorem writer_stops_at_first_refusal (w : World) (rd : RunnerData)
    (bars customers : list NodeRecord) (sats links : list RelationshipRecord)
    (s : state) (target : string) (tail : list string) (dataset : Dataset) :
  dataset_list rd = target :: tail ->
  api_find_dataset_by_id w target = Some dataset ->
  let lookup := FindDatasetById target in
  let clear := if truthy (status dataset)
               then [TwingraphQuery target DELETE_ALL] else [] in
  let nodes := CreateTwingraphEntities target "node" (Node <$> bars ++ customers) in
  let rels := CreateTwingraphEntities target "relationship"
                (Relationship <$> sats ++ links) in
  let out := graph_writer w rd bars customers sats links s in
  (truthy (status dataset) = true ->
   api_twingraph_query w target DELETE_ALL = false ->
   out.1 = Raise ApiException
   /\ trace out.2 = trace s ++ [lookup; TwingraphQuery target DELETE_ALL])
  /\ ((truthy (status dataset) = true ->
       api_twingraph_query w target DELETE_ALL = true) ->
      api_create_twingraph_entities w target "node" (Node <$> bars ++ customers)
      = None ->
      out.1 = Raise ApiException
      /\ trace out.2 = trace s ++ lookup :: clear ++ [nodes])
  /\ ((truthy (status dataset) = true ->
       api_twingraph_query w target DELETE_ALL = true) ->
      is_Some (api_create_twingraph_entities w target "node"
                 (Node <$> bars ++ customers)) ->
      api_create_twingraph_entities w target "relationship"
        (Relationship <$> sats ++ links) = None ->
      out.1 = Raise ApiException
      /\ trace out.2 = trace s ++ lookup :: clear ++ [nodes; rels]).
Proof.
  intros Hrd Hds lookup clear nodes rels out.
  assert (Htr : trace out.2
                = trace s ++ lookup
                    :: writer_calls w target dataset (Node <$> bars ++ customers)
                         (Relationship <$> sats ++ links))
    by (by eapply graph_writer_events).
  assert (Hres : forall e, out.1 = Raise e -> e = ApiException).
  { intros e. unfold out, graph_writer. rewrite Hrd.
    unfold_run. cbn [index0 files trace]. rewrite Hds.
    repeat (match goal with
            | |- context [if ?b then _ else _] => destruct b
            | |- context [match ?o with Some _ => _ | None => _ end] =>
                destruct o
            end; cbn [files trace fst]); congruence. }
  assert (Hfail : (exists u, out.1 = Ok u) -> 
                  (truthy (status dataset) = true ->
                   api_twingraph_query w target DELETE_ALL = true)
                  /\ is_Some (api_create_twingraph_entities w target "node"
                                (Node <$> bars ++ customers))
                  /\ is_Some (api_create_twingraph_entities w target "relationship"
                                (Relationship <$> sats ++ links))).
  { intros [u Hu]. apply graph_writer_ok_inv in Hu
      as (target' & tail' & dataset' & Hrd' & Hds' & H1 & H2 & H3).
    rewrite Hrd in Hrd'. injection Hrd' as <- <-.
    rewrite Hds in Hds'. injection Hds' as <-. auto. }
  assert (Hraise : ~ (exists u, out.1 = Ok u) -> out.1 = Raise ApiException).
  { intros Hno. destruct out.1 as [u|e] eqn:E; [exfalso; eauto|].
    by rewrite (Hres e eq_refl). }
  split; [|split].
  - intros Ht Hq. split.
    + apply Hraise. intros Hu. apply Hfail in Hu as [Hu _].
      rewrite Hu in Hq by exact Ht. discriminate.
    + rewrite Htr. unfold writer_calls. rewrite Ht, Hq. reflexivity.
  - intros Hq Hn. split.
    + apply Hraise. intros Hu. apply Hfail in Hu as (_ & [c Hc] & _).
      congruence.
    + rewrite Htr. unfold writer_calls, clear. rewrite Hn.
      destruct (truthy (status dataset)); [rewrite Hq by reflexivity|];
        reflexivity.
  - intros Hq [cn Hn] Hr. split.
    + apply Hraise. intros Hu. apply Hfail in Hu as (_ & _ & [c Hc]).
      congruence.
    + rewrite Htr. unfold writer_calls, clear. rewrite Hn.
      destruct (truthy (status dataset)); [rewrite Hq by reflexivity|];
        reflexivity.
Qed.

(** X13 (witness): the sample platform refusing the query, and refusing the
    node write. *)
Lemma writer_stops_at_first_refusal_witness :
  let rd := {| dataset_list := ["d-target"]; parameters_values := [] |} in
  let s := {| files := ∅; trace := [] |} in
  trace (graph_writer (with_graph bar_world false (fun _ => Some []))
           rd [] [] [] [] s).2
  = [] ++ [FindDatasetById "d-target"; TwingraphQuery "d-target" DELETE_ALL]
  /\ trace (graph_writer (with_graph bar_world true (fun _ => None))
              rd [] [] [] [] s).2
     = [] ++ FindDatasetById "d-target"
          :: [TwingraphQuery "d-target" DELETE_ALL]
          ++ [CreateTwingraphEntities "d-target" "node" []].
Proof.
  intros rd s. split.
  - exact (proj2 (proj1 (writer_stops_at_first_refusal
             (with_graph bar_world false (fun _ => Some [])) rd [] [] [] [] s
             "d-target" []
             {| connector_parameters_values := None; status := PyStr "READY" |}
             eq_refl eq_refl) eq_refl eq_refl)).
  - exact (proj2 (proj1 (proj2 (writer_stops_at_first_refusal
             (with_graph bar_world true (fun _ => None)) rd [] [] [] [] s
             "d-target" []
             {| connector_parameters_values := None; status := PyStr "READY" |}
             eq_refl eq_refl)) (fun _ => eq_refl) eq_refl)).
Defined.

(** X14: the graph is not touched before everything else is done: if a run
    issues any query or bulk-create call, then the parameters were loaded,
    the Bar record was built, the archive was extracted and the three tables
    were mapped, all without error.  A run that fails in one of these stages
    leaves the target dataset as it was. *)
Theorem graph_untouched_until_mapped (w : World) (e : event) :
  e ∈ trace (run w).2 ->
  is_graph_call e = true ->
  exists rd parameters s1 bars base_path s2 customers sats links,
    load_parameters w (initial_state w) = (Ok (rd, parameters), s1)
    /\ config_record_builder parameters = Ok bars
    /\ archive_extractor w parameters s1 = (Ok base_path, s2)
    /\ csv_entity_mapper w base_path s2 = (Ok (customers, sats, links), s2).
Proof.
  intros He Hg.
  destruct (run_trace w) as [Hq|
    (rd & parameters & s1 & bars & base_path & s2 & customers & sats & links
     & target & tail & dataset & E1 & E2 & E3 & E4 & _)].
  - apply (quiet_elem _ _ Hq) in He. congruence.
  - exists rd, parameters, s1, bars, base_path, s2, customers, sats, links.
    repeat split; assumption.
Qed.

(** X14 (witness): the delete-all query of the sample run, and the run on
    the dataset that is not a workspace file, which stops at line 115 and
    issues no graph call. *)
Lemma graph_untouched_until_mapped_witness :
  (exists rd parameters s1 bars,
      load_parameters bar_world (initial_state bar_world)
      = (Ok (rd, parameters), s1)
      /\ config_record_builder parameters = Ok bars)
  /\ graph_calls (trace (run blob_world).2) = [].
Proof.
  split; [|vm_compute; reflexivity].
  destruct (graph_untouched_until_mapped bar_world
              (TwingraphQuery "d-target" DELETE_ALL))
    as (rd & parameters & s1 & bars & base_path & s2 & customers & sats & links
        & E1 & E2 & _).
  - apply (bool_decide_unpack _). vm_compute. reflexivity.
  - reflexivity.
  - exists rd, parameters, s1, bars. split; [exact E1|exact E2].
Defined.

(** X15: the run stops before any parameter is resolved, with no local
    file written, when the token is refused (credential error), when the
    runner cannot be read (API error), when the runner has no dataset
    (index error at line 50, before any dataset lookup), when the target
    dataset cannot be looked up, and when the workspace files cannot be
    listed (API errors). *)
Theorem run_stops_in_the_prelude (w : World) :
  (token_granted w = false ->
   run w = (Raise CredentialError,
            {| files := initial_files w; trace := [GetToken] |}))
  /\ (token_granted w = true -> api_get_runner w = None ->
      run w = (Raise ApiException,
               {| files := initial_files w; trace := [GetToken; GetRunner] |}))
  /\ (forall rd,
        token_granted w = true -> api_get_runner w = Some rd ->
        dataset_list rd = [] ->
        run w = (Raise IndexError,
                 {| files := initial_files w; trace := [GetToken; GetRunner] |}))
  /\ (forall rd target tail,
        token_granted w = true -> api_get_runner w = Some rd ->
        dataset_list rd = target :: tail ->
        api_find_dataset_by_id w target = None ->
        run w = (Raise ApiException,
                 {| files := initial_files w;
                    trace := [GetToken; GetRunner; FindDatasetById target] |}))
  /\ (forall rd target tail dataset,
        token_granted w = true -> api_get_runner w = Some rd ->
        dataset_list rd = target :: tail ->
        api_find_dataset_by_id w target = Some dataset ->
        api_find_all_workspace_files w = None ->
        run w = (Raise ApiException,
                 {| files := initial_files w;
                    trace := [GetToken; GetRunner; FindDatasetById target;
                              FindAllWorkspaceFiles] |})).
Proof.
  unfold run, main, load_parameters, initial_state.
  repeat apply conj; intros; unfold_run; cbn [files trace index0];
    repeat match goal with
           | H : _ = _ |- _ => rewrite H; clear H; cbn [files trace index0 app]
           end; reflexivity.
Qed.

(** X15 (witness): the sample platform with a runner that has no dataset. *)
Lemma run_stops_in_the_prelude_witness :
  run (with_runner bar_world
         (Some {| dataset_list := []; parameters_values := bar_params |}))
  = (Raise IndexError, {| files := ∅; trace := [GetToken; GetRunner] |}).
Proof.
  exact (proj1 (proj2 (proj2 (run_stops_in_the_prelude
           (with_runner bar_world
              (Some {| dataset_list := []; parameters_values := bar_params |})))))
           {| dataset_list := []; parameters_values := bar_params |}
           eq_refl eq_refl eq_refl).
Defined.

(** ** Integers in the Bar record *)







